(** * pro_order: the Work ticket views and the Like endpoints

    A shallow embedding of [apps/work/views.py] (the two generic views
    [WorkListCreateView] and [WorkDetailView]) and of the Like endpoints
    exercised by [apps/like/tests.py].

    Conventions of the embedding:
    - a database table is a finite map from primary key to row;
    - an exception raised by a view ([permission_denied], a failed
      [is_valid(raise_exception=True)], [get_object]'s 404) is a value of
      the error monad [Raises]; a handler turns it into the HTTP response
      and leaves the table as it was;
    - [timezone.now()] is an explicit argument [now]. *)

From Stdlib Require Import ZArith String Lia.
From stdpp Require Import base option gmap strings.

(** ** HTTP layer: exceptions and responses *)

Module Http.

(** The framework exceptions the views can raise. *)
Inductive APIException :=
| ValidationError (detail : string)
| NotAuthenticated
| PermissionDenied
| NotFound.

Definition exception_status (e : APIException) : Z :=
  match e with
  | ValidationError _ => 400
  | NotAuthenticated => 401
  | PermissionDenied => 403
  | NotFound => 404
  end.

(** A computation that either returns or raises. *)
Inductive Raises (A : Type) :=
| Return (a : A)
| Raise (e : APIException).
Arguments Return {A} a.
Arguments Raise {A} e.

#[export] Instance Raises_ret : MRet Raises := fun _ a => Return a.
#[export] Instance Raises_bind : MBind Raises := fun _ _ k c =>
  match c with
  | Return a => k a
  | Raise e => Raise e
  end.

(** [BaseResponseMixin.success(data=..., message=..., status=...)] on the
    one hand, the framework's default exception handler on the other. *)
Inductive Response (D : Type) :=
| success (data : option D) (status : Z)
| failure (e : APIException).
Arguments success {D} data status.
Arguments failure {D} e.

Definition status_code {D} (r : Response D) : Z :=
  match r with
  | success _ st => st
  | failure e => exception_status e
  end.

Definition response_data {D} (r : Response D) : option D :=
  match r with
  | success d _ => d
  | failure _ => None
  end.

(** Run a view body against a table: an exception leaves the table
    untouched and becomes the error response. *)
Definition handle {D T} (db : T) (body : Raises (Response D * T)) : Response D * T :=
  match body with
  | Return out => out
  | Raise e => (failure e, db)
  end.

End Http.
Export Http.

(** ** Users and requests *)

Record User := mkUser {
  user_pk : Z;
  email : string;
  is_staff : bool
}.

(** [request.user]: the framework's [AnonymousUser] or a stored user. *)
Inductive RequestUser :=
| AnonymousUser
| LoggedIn (u : User).

Definition is_authenticated (ru : RequestUser) : bool :=
  match ru with
  | AnonymousUser => false
  | LoggedIn _ => true
  end.

(** [request.user.is_staff]; [AnonymousUser.is_staff] is [False]. *)
Definition user_is_staff (ru : RequestUser) : bool :=
  match ru with
  | AnonymousUser => false
  | LoggedIn u => is_staff u
  end.

(** Model instances compare by primary key. *)
Definition user_eqb (a b : User) : bool := bool_decide (user_pk a = user_pk b).

(** [related == request.user] for a nullable foreign key [related]:
    [None] and [AnonymousUser] equal no stored user. *)
Definition fk_eq_user (related : option User) (ru : RequestUser) : bool :=
  match related, ru with
  | Some a, LoggedIn u => user_eqb a u
  | _, _ => false
  end.

(** [related != request.user] *)
Definition fk_ne_user (related : option User) (ru : RequestUser) : bool :=
  negb (fk_eq_user related ru).

(** [self.permission_denied(request)]: 401 when the request carries no
    successful authentication, 403 otherwise. *)
Definition permission_denied {A} (ru : RequestUser) : Raises A :=
  if is_authenticated ru then Raise PermissionDenied else Raise NotAuthenticated.

(** [permission_classes = [permissions.IsAuthenticated]], checked by the
    framework before the handler runs. *)
Definition check_permissions (ru : RequestUser) : Raises unit :=
  if is_authenticated ru then Return tt else permission_denied ru.

(** ** The Work subsystem *)

Module Work.

(** Modelled from the spec: [apps/work/models.py] is absent.  The status
    enumeration [Work.WorkStatus] is "PENDING (implied initial), ...,
    COMPLETED, ..."; the members the spec leaves open are kept by name. *)
Inductive WorkStatus :=
| PENDING
| COMPLETED
| OtherStatus (name : string).

#[export] Instance WorkStatus_eq_dec : EqDecision WorkStatus.
Proof. solve_decision. Defined.

(** Modelled from the spec: [apps/work/models.py] is absent.  A row of
    the Work table with the attributes of the data model; [assignee] is a
    nullable reference to a user, [order] the referenced order's key,
    dates and times are numbers. *)
Record Work := mkWork {
  id : Z;
  title : string;
  description : string;
  status : WorkStatus;
  work_type : string;
  assignee : option User;
  order : option Z;
  due_date : option Z;
  completed_at : option Z
}.

(** [serializer.validated_data]: a dictionary keyed by field name.  Each
    field is [None] when the key is absent; a nullable field that is
    present holds [Some None] for Python's [None]. *)
Record ValidatedData := mkValidated {
  vd_title : option string;
  vd_description : option string;
  vd_status : option WorkStatus;
  vd_work_type : option string;
  vd_assignee : option (option User);
  vd_order : option (option Z);
  vd_due_date : option (option Z);
  vd_completed_at : option (option Z)
}.

(** [validated_data["assignee"] = v] *)
Definition set_assignee (v : option User) (vd : ValidatedData) : ValidatedData :=
  {| vd_title := vd_title vd; vd_description := vd_description vd;
     vd_status := vd_status vd; vd_work_type := vd_work_type vd;
     vd_assignee := Some v; vd_order := vd_order vd;
     vd_due_date := vd_due_date vd; vd_completed_at := vd_completed_at vd |}.

(** [validated_data["completed_at"] = v] *)
Definition set_completed_at (v : option Z) (vd : ValidatedData) : ValidatedData :=
  {| vd_title := vd_title vd; vd_description := vd_description vd;
     vd_status := vd_status vd; vd_work_type := vd_work_type vd;
     vd_assignee := vd_assignee vd; vd_order := vd_order vd;
     vd_due_date := vd_due_date vd; vd_completed_at := Some v |}.

(** [validated_data.get("assignee") is None]: key absent or null. *)
Definition assignee_unspecified (vd : ValidatedData) : bool :=
  match vd_assignee vd with
  | None | Some None => true
  | Some (Some _) => false
  end.

(** The Work table. *)
Abbreviation WorkTable := (gmap Z Work).

(** The model serializer's [update]: every key of the validated data is
    assigned to the instance, the other attributes stay. *)
Definition apply_validated (vd : ValidatedData) (w : Work) : Work :=
  {| id := id w;
     title := default (title w) (vd_title vd);
     description := default (description w) (vd_description vd);
     status := default (status w) (vd_status vd);
     work_type := default (work_type w) (vd_work_type vd);
     assignee := default (assignee w) (vd_assignee vd);
     order := default (order w) (vd_order vd);
     due_date := default (due_date w) (vd_due_date vd);
     completed_at := default (completed_at w) (vd_completed_at vd) |}.

(** Modelled from the spec: [apps/work/models.py] is absent.  The row a
    bare [Work.objects.create()] would store under key [pk]: status
    PENDING, every nullable attribute null. *)
Definition blank_work (pk : Z) : Work :=
  {| id := pk; title := ""; description := ""; status := PENDING;
     work_type := ""; assignee := None; order := None; due_date := None;
     completed_at := None |}.

(** The key the store gives to the next inserted row. *)
Definition next_pk (db : WorkTable) : Z := fresh (dom db).

(** A serializer bound to validated data and, for an update, to the
    instance being updated. *)
Record Serializer := mkSerializer {
  instance : option Work;
  validated_data : ValidatedData
}.

(** [serializer.save()]: update the bound instance, or create a row when
    there is none; the serializer's instance is the saved row. *)
Definition save (serializer : Serializer) (db : WorkTable) : Serializer * WorkTable :=
  let saved :=
    match instance serializer with
    | Some w => apply_validated (validated_data serializer) w
    | None => apply_validated (validated_data serializer) (blank_work (next_pk db))
    end in
  ({| instance := Some saved; validated_data := validated_data serializer |},
   <[id saved := saved]> db).

(** A request as the views read it: the authenticated user and the
    request body.  [serializers.py] is absent, so the body is kept as
    the verdict [WorkCreateUpdateSerializer] reaches on it. *)
Inductive RequestData :=
| Malformed (errors : string)
| WellFormed (fields : ValidatedData).

Record Request := mkRequest {
  user : RequestUser;
  data : RequestData
}.

(** [serializer.is_valid(raise_exception=True)] *)
Definition is_valid (d : RequestData) : Raises ValidatedData :=
  match d with
  | Malformed errors => Raise (ValidationError errors)
  | WellFormed fields => Return fields
  end.

(** *** WorkListCreateView *)

(** [qs.filter(assignee=request.user)]: the rows whose assignee key is
    the requester's. *)
Definition filter_assignee (ru : RequestUser) (qs : WorkTable) : WorkTable :=
  filter (fun row => fk_eq_user (assignee row.2) ru = true) qs.

(** [get_queryset]: [select_related] and [only] change the columns that
    are fetched, not the rows.  (The [swagger_fake_view] branch serves
    schema generation, not requests.) *)
Definition list_get_queryset (request : Request) (db : WorkTable) : WorkTable :=
  if user_is_staff (user request) then db
  else filter_assignee (user request) db.

(** Only a stored user passes the staff test, so the assignment of
    [request.user] always has a user to assign. *)
Definition perform_create (request : Request) (serializer : Serializer) (db : WorkTable)
  : Raises (Serializer * WorkTable) :=
  _ ← (if negb (user_is_staff (user request))
       then permission_denied (user request) else Return tt);
  let serializer :=
    match user request with
    | LoggedIn u =>
        if assignee_unspecified (validated_data serializer)
        then {| instance := instance serializer;
                validated_data := set_assignee (Some u) (validated_data serializer) |}
        else serializer
    | AnonymousUser => serializer
    end in
  Return (save serializer db).

Definition create (request : Request) (db : WorkTable) : Response Work * WorkTable :=
  handle db (
    _ ← check_permissions (user request);
    vd ← is_valid (data request);
    '(serializer, db') ← perform_create request {| instance := None; validated_data := vd |} db;
    Return (success (instance serializer) 201, db')).

(** *** WorkDetailView *)

Definition get_queryset (request : Request) (db : WorkTable) : WorkTable :=
  if user_is_staff (user request) then db
  else filter_assignee (user request) db.

(** [get_object]: look the key up in the view's queryset, 404 when it is
    not there. *)
Definition get_object (request : Request) (pk : Z) (db : WorkTable) : Raises Work :=
  match get_queryset request db !! pk with
  | Some w => Return w
  | None => Raise NotFound
  end.

Definition retrieve (request : Request) (pk : Z) (db : WorkTable) : Response Work * WorkTable :=
  handle db (
    _ ← check_permissions (user request);
    w ← get_object request pk db;
    Return (success (Some w) 200, db)).

(** ["status" in validated_data] *)
Definition has_status (vd : ValidatedData) : bool :=
  bool_decide (is_Some (vd_status vd)).

(** [validated_data["status"] == s], for a dictionary that has the key. *)
Definition status_is (vd : ValidatedData) (s : WorkStatus) : bool :=
  bool_decide (vd_status vd = Some s).

(** [update] always binds the serializer to the instance it fetched; an
    unbound serializer is read as having no assignee. *)
Definition perform_update (request : Request) (now : Z) (serializer : Serializer)
    (db : WorkTable) : Raises (Serializer * WorkTable) :=
  _ ← (if negb (user_is_staff (user request))
          && fk_ne_user (instance serializer ≫= assignee) (user request)
       then permission_denied (user request) else Return tt);
  let vd := validated_data serializer in
  let vd :=
    if has_status vd && status_is vd COMPLETED
    then set_completed_at (Some now) vd
    else if has_status vd && negb (status_is vd COMPLETED)
    then set_completed_at None vd
    else vd in
  Return (save {| instance := instance serializer; validated_data := vd |} db).

(** The data of a 200 is the saved instance as the write serializer is
    handed it ([serializer.data]); which of its fields the rendering shows
    is the absent serializer's and is not modelled. *)
Definition update (request : Request) (pk : Z) (now : Z) (db : WorkTable)
  : Response Work * WorkTable :=
  handle db (
    _ ← check_permissions (user request);
    w ← get_object request pk db;
    vd ← is_valid (data request);
    '(serializer, db') ← perform_update request now {| instance := Some w; validated_data := vd |} db;
    Return (success (instance serializer) 200, db')).

Definition perform_destroy (request : Request) (w : Work) (db : WorkTable)
  : Raises WorkTable :=
  _ ← (if negb (user_is_staff (user request)) && fk_ne_user (assignee w) (user request)
       then permission_denied (user request) else Return tt);
  Return (delete (id w) db).

Definition destroy (request : Request) (pk : Z) (db : WorkTable)
  : Response Work * WorkTable :=
  handle db (
    _ ← check_permissions (user request);
    w ← get_object request pk db;
    db' ← perform_destroy request w db;
    Return (success None 204, db')).

End Work.

(** ** The Like subsystem *)

Module Like.

(** Modelled from the spec: the framework's content-type row, a key and
    the lower-case model name ("order" for an Order), which is the
    human-readable name the Like endpoints derive. *)
Record ContentType := mkContentType {
  ct_pk : Z;
  model : string
}.

(** Modelled from the spec: [apps/like/models.py] is absent.  A Like
    links a user to an item named by content type and object key. *)
Record Like := mkLike {
  id : Z;
  user : User;
  content_type : ContentType;
  object_id : Z;
  created_at : Z
}.

#[export] Instance User_eq_dec : EqDecision User.
Proof. solve_decision. Defined.
#[export] Instance ContentType_eq_dec : EqDecision ContentType.
Proof. solve_decision. Defined.
#[export] Instance Like_eq_dec : EqDecision Like.
Proof. solve_decision. Defined.

Abbreviation LikeTable := (gmap Z Like).

(** Modelled from the spec: the serializer of [apps/like] is absent.  The
    record a response carries: the stored columns by key and the derived
    [content_type_name]. *)
Record LikeData := mkLikeData {
  data_id : Z;
  data_user : Z;
  data_content_type : Z;
  data_object_id : Z;
  content_type_name : string;
  data_created_at : Z
}.

Definition to_representation (l : Like) : LikeData :=
  {| data_id := id l;
     data_user := user_pk (user l);
     data_content_type := ct_pk (content_type l);
     data_object_id := object_id l;
     content_type_name := model (content_type l);
     data_created_at := created_at l |}.

(** The row matches (user, content_type, object_id), each reference
    compared by key. *)
Definition same_target (u : User) (ct : ContentType) (oid : Z) (l : Like) : bool :=
  user_eqb (user l) u
  && bool_decide (ct_pk (content_type l) = ct_pk ct)
  && bool_decide (object_id l = oid).

(** [Like.objects.filter(user=u, content_type=ct, object_id=oid)] *)
Definition likes_of (u : User) (ct : ContentType) (oid : Z) (db : LikeTable) : LikeTable :=
  filter (fun row => same_target u ct oid row.2 = true) db.

(** [queryset.exists()] *)
Definition exists_ (qs : LikeTable) : bool := bool_decide (qs ≠ ∅).

(** [queryset.count()] *)
Definition count (qs : LikeTable) : nat := size qs.

(** The store's unique constraint on (user, content_type, object_id). *)
Definition unique_together (db : LikeTable) : Prop :=
  ∀ k1 k2 l1 l2,
    db !! k1 = Some l1 → db !! k2 = Some l2 →
    same_target (user l1) (content_type l1) (object_id l1) l2 = true →
    k1 = k2.

Definition next_pk (db : LikeTable) : Z := fresh (dom db).

(** A POST body: rejected by field validation, or naming an item. *)
Inductive RequestData :=
| Malformed (errors : string)
| Target (ct : ContentType) (oid : Z).

Record Request := mkRequest {
  requester : RequestUser;
  data : RequestData
}.

Definition already_liked_message : string := "You have already liked this item.".

(** Modelled from the spec: [apps/like/views.py] is absent.  "Create
    validates that no existing Like matches (user, content_type,
    object_id); violation -> 400 with message "You have already liked
    this item."  Success -> 201 with the created record including a
    derived human-readable content-type name." *)
Definition create (request : Request) (now : Z) (db : LikeTable)
  : Response LikeData * LikeTable :=
  handle db (
    _ ← check_permissions (requester request);
    match requester request, data request with
    | AnonymousUser, _ => Raise NotAuthenticated
    | LoggedIn _, Malformed errors => Raise (ValidationError errors)
    | LoggedIn u, Target ct oid =>
        if exists_ (likes_of u ct oid db)
        then Raise (ValidationError already_liked_message)
        else
          let l := {| id := next_pk db; user := u; content_type := ct;
                      object_id := oid; created_at := now |} in
          Return (success (Some (to_representation l)) 201, <[id l := l]> db)
    end).

(** Modelled from the spec: [apps/like/views.py] is absent.  "destroy:
    only the like's owner may delete; any other authenticated user
    receives 403 and the record is preserved.  Missing record -> 404." *)
Definition destroy (ru : RequestUser) (pk : Z) (db : LikeTable)
  : Response LikeData * LikeTable :=
  handle db (
    _ ← check_permissions ru;
    match db !! pk with
    | None => Raise NotFound
    | Some l =>
        if fk_ne_user (Some (user l)) ru
        then permission_denied ru
        else Return (success None 204, delete pk db)
    end).

End Like.

(** ** Sample data *)

Module Sample.
Import Work.

Definition admin : User := mkUser 1 "staff@example.com" true.
Definition alice : User := mkUser 2 "alice@example.com" false.
Definition bob : User := mkUser 3 "bob@example.com" false.

(** A pending ticket assigned to alice. *)
Definition ticket : Work :=
  mkWork 1 "pack" "pack the parcel" PENDING "PACKING" (Some alice) (Some 10%Z) None None.

Definition tickets : WorkTable := {[ 1%Z := ticket ]}.

(** A payload that carries only a status. *)
Definition only_status (s : WorkStatus) : ValidatedData :=
  mkValidated None None (Some s) None None None None None.

(** A payload that carries only a title. *)
Definition only_title (t : string) : ValidatedData :=
  mkValidated (Some t) None None None None None None None.

(** alice sends a status; bob, a stranger to the ticket, does the same;
    admin and alice send a title only. *)
Definition alice_sets (s : WorkStatus) : Request :=
  mkRequest (LoggedIn alice) (WellFormed (only_status s)).
Definition bob_sets (s : WorkStatus) : Request :=
  mkRequest (LoggedIn bob) (WellFormed (only_status s)).
Definition admin_titles : Request :=
  mkRequest (LoggedIn admin) (WellFormed (only_title "ship")).
Definition alice_titles : Request :=
  mkRequest (LoggedIn alice) (WellFormed (only_title "ship")).
Definition alice_garbles : Request :=
  mkRequest (LoggedIn alice) (Malformed "title: This field is required.").

Definition order_type : Like.ContentType := Like.mkContentType 7 "order".

(** bob's like of order 10. *)
Definition bobs_like : Like.Like := Like.mkLike 1 bob order_type 10 1000.

Definition likes : Like.LikeTable := {[ 1%Z := bobs_like ]}.

End Sample.

(** ** Predicates used in the statements *)

Module WorkSpec.
Import Work.

(** The requester may change the ticket: staff, or the ticket's assignee. *)
Definition may_change (ru : RequestUser) (w : Work) : Prop :=
  user_is_staff ru = true ∨ fk_eq_user (assignee w) ru = true.



(** The two branches of [perform_update] on the status key, as one
    case analysis; [perform_update_allowed] below shows the view computes
    exactly this. *)
Definition derive_completed_at (now : Z) (vd : ValidatedData) : ValidatedData :=
  match vd_status vd with
  | Some s => set_completed_at (if decide (s = COMPLETED) then Some now else None) vd
  | None => vd
  end.

(** The row a staff user's create stores: the payload, with the
    requester as assignee when the payload names none, over the blank
    row at the next key. *)
Definition created_work (u : User) (vd : ValidatedData) (db : WorkTable) : Work :=
  apply_validated
    (if assignee_unspecified vd then set_assignee (Some u) vd else vd)
    (blank_work (next_pk db)).

End WorkSpec.

Module LikeSpec.
Import Like.

(** The table holds a Like of item (ct, oid) by user u. *)
Definition liked (u : User) (ct : ContentType) (oid : Z) (db : LikeTable) : Prop :=
  ∃ k l, db !! k = Some l ∧ same_target u ct oid l = true.

(** The table holds a like of item (ct, oid) by user u: a row whose user,
    content type and object id have these keys. *)
Definition has_like (u : User) (ct : ContentType) (oid : Z) (db : LikeTable) : Prop :=
  ∃ k l, db !! k = Some l
         ∧ user_pk (user l) = user_pk u
         ∧ ct_pk (content_type l) = ct_pk ct
         ∧ object_id l = oid.

(** The number of stored likes of item (ct, oid) by user u. *)
Definition like_count (u : User) (ct : ContentType) (oid : Z) (db : LikeTable) : nat :=
  size (filter (fun row : Z * Like =>
                  user_pk (user row.2) = user_pk u
                  ∧ ct_pk (content_type row.2) = ct_pk ct
                  ∧ object_id row.2 = oid) db).

(** The unique constraint, key by key: two rows with the same user,
    content type and object id are one row. *)
Definition one_like_per_item (db : LikeTable) : Prop :=
  ∀ k1 k2 l1 l2,
    db !! k1 = Some l1 → db !! k2 = Some l2 →
    user_pk (user l1) = user_pk (user l2) →
    ct_pk (content_type l1) = ct_pk (content_type l2) →
    object_id l1 = object_id l2 →
    k1 = k2.

End LikeSpec.

(** ** Store well-formedness *)

Module WorkStore.
Import Work.

(** Every row is stored under its own primary key. *)
Definition rows_keyed (db : WorkTable) : Prop :=
  ∀ k w, db !! k = Some w → id w = k.

End WorkStore.

(** ** The user admin ([apps/user/admin.py]) *)

Module UserAdmin.

(** The two model forms of the module. *)
Inductive FormClass :=
| CustomUserCreationForm
| CustomUserChangeForm.

(** [Meta.fields] of each form. *)
Definition meta_fields (f : FormClass) : list string :=
  match f with
  | CustomUserCreationForm => ["email"; "nickname"]
  | CustomUserChangeForm => ["email"; "nickname"; "is_active"; "is_staff"; "is_superuser"]
  end.

Definition add_form : FormClass := CustomUserCreationForm.
Definition form : FormClass := CustomUserChangeForm.

Definition readonly_fields : list string := ["created_at"; "updated_at"].

(** A fieldset: its title and its "fields" tuple. *)
Definition Fieldset : Type := string * list string.

(** [get_fieldsets(request, obj=None)]; a model instance is always truthy,
    so [not obj] holds exactly for [None]. *)
Definition get_fieldsets (obj : option User) : list Fieldset :=
  match obj with
  | None =>
      [ ("기본 정보", ["email"; "nickname"; "password1"; "password2"]);
        ("권한", ["is_active"; "is_staff"; "is_superuser"]) ]
  | Some _ =>
      [ ("기본 정보", ["email"; "nickname"]);
        ("권한", ["is_active"; "is_staff"; "is_superuser"]);
        ("기타 정보", ["created_at"; "updated_at"]) ]
  end.

(** [get_form(request, obj=None, **kwargs)]: the form class handed on to
    the framework as [kwargs["form"]]. *)
Definition get_form (obj : option User) : FormClass :=
  match obj with
  | None => add_form
  | Some _ => form
  end.

(** The field names of a list of fieldsets, in order. *)
Definition flatten_fieldsets (fieldsets : list Fieldset) : list string :=
  concat (map snd fieldsets).

End UserAdmin.

(** ** The fixtures of [apps/like/tests.py] *)

Module LikeTests.
Import Like.

(** The [create_like] fixture: [Like.objects.create(user=..., content_type=...,
    object_id=content_object.pk, **kwargs)], the content object given by its
    content type and key.  The store refuses a second row for the same
    (user, content_type, object_id); that is [None] here. *)
Definition create_like (u : User) (ct : ContentType) (oid : Z) (created : Z)
    (db : LikeTable) : option (Like * LikeTable) :=
  if exists_ (likes_of u ct oid db) then None
  else
    let l := {| id := next_pk db; user := u; content_type := ct;
                object_id := oid; created_at := created |} in
    Some (l, <[id l := l]> db).

End LikeTests.

(** ** More sample data *)

Module Sample2.
Import Work Sample.

(** A completed ticket nobody is assigned to. *)
Definition orphan : Work :=
  mkWork 2 "audit" "" COMPLETED "CHECK" None (Some 11%Z) None (Some 50%Z).

Definition two_tickets : WorkTable := <[ 2%Z := orphan ]> tickets.

(** alice hands the ticket over to bob. *)
Definition hand_over : ValidatedData :=
  mkValidated None None None None (Some (Some bob)) None None None.
Definition alice_hands_over : Request :=
  mkRequest (LoggedIn alice) (WellFormed hand_over).

(** admin creates a completed ticket for alice. *)
Definition completed_for_alice : ValidatedData :=
  mkValidated (Some "ship") None (Some COMPLETED) None (Some (Some alice)) None None None.
Definition admin_creates : Request :=
  mkRequest (LoggedIn admin) (WellFormed completed_for_alice).

Definition admin_garbles : Request :=
  mkRequest (LoggedIn admin) (Malformed "status: not a valid choice.").

Definition anonymous_titles : Request :=
  mkRequest AnonymousUser (WellFormed (only_title "ship")).


(** admin creates with the assignee key present and null. *)
Definition null_assignee : ValidatedData :=
  mkValidated (Some "ship") None None None (Some None) None None None.
Definition admin_creates_unassigned : Request :=
  mkRequest (LoggedIn admin) (WellFormed null_assignee).

(** alice's like of the order bob has liked, as the fixture stores it. *)
Definition alices_like : Like.Like := Like.mkLike 2 alice order_type 10 3000.
Definition likes_after : Like.LikeTable := <[ 2%Z := alices_like ]> likes.

End Sample2.

Ltac run_view :=
  unfold handle, mbind, Raises_bind, mret, Raises_ret; simpl.

Ltac decide_closed := apply (bool_decide_unpack _); by vm_compute.

(** * Properties *)

(** ** Generic facts about the request user *)

Lemma fk_ne_user_false (related : option User) (ru : RequestUser) :
  fk_ne_user related ru = false ↔ fk_eq_user related ru = true.
Proof. unfold fk_ne_user. destruct (fk_eq_user related ru); simpl; intuition congruence. Qed.

Lemma fk_ne_user_true (related : option User) (ru : RequestUser) :
  fk_ne_user related ru = true ↔ fk_eq_user related ru = false.
Proof. unfold fk_ne_user. destruct (fk_eq_user related ru); simpl; intuition congruence. Qed.

Lemma fk_eq_user_spec (related : option User) (ru : RequestUser) :
  fk_eq_user related ru = true ↔
  ∃ a u, related = Some a ∧ ru = LoggedIn u ∧ user_pk a = user_pk u.
Proof.
  unfold fk_eq_user, user_eqb. split.
  - destruct related as [a|], ru as [|u]; try discriminate.
    intros H%bool_decide_eq_true. eauto.
  - intros (a & u & -> & -> & H). by apply bool_decide_eq_true.
Qed.

Lemma check_permissions_ok (ru : RequestUser) :
  is_authenticated ru = true → check_permissions ru = Return tt.
Proof. unfold check_permissions. by intros ->. Qed.

Lemma staff_is_authenticated (ru : RequestUser) :
  user_is_staff ru = true → is_authenticated ru = true.
Proof. by destruct ru. Qed.

(** ** The Work views *)

Module WorkFacts.
Import Work WorkSpec.

Lemma filter_assignee_lookup (ru : RequestUser) (db : WorkTable) (pk : Z) (w : Work) :
  filter_assignee ru db !! pk = Some w ↔
  db !! pk = Some w ∧ fk_eq_user (assignee w) ru = true.
Proof. unfold filter_assignee. by rewrite map_lookup_filter_Some. Qed.

Lemma get_queryset_lookup (request : Request) (db : WorkTable) (pk : Z) (w : Work) :
  get_queryset request db !! pk = Some w ↔
  db !! pk = Some w ∧ may_change (user request) w.
Proof.
  unfold get_queryset, may_change.
  destruct (user_is_staff (user request)) eqn:Hstaff.
  - intuition congruence.
  - rewrite filter_assignee_lookup. intuition congruence.
Qed.

Lemma get_object_Return (request : Request) (pk : Z) (db : WorkTable) (w : Work) :
  get_object request pk db = Return w ↔
  db !! pk = Some w ∧ may_change (user request) w.
Proof.
  rewrite <- get_queryset_lookup. unfold get_object.
  destruct (get_queryset request db !! pk); split; intros H; by simplify_eq.
Qed.

Lemma get_object_cases (request : Request) (pk : Z) (db : WorkTable) :
  get_object request pk db = Raise NotFound ∨
  ∃ w, get_object request pk db = Return w.
Proof. unfold get_object. destruct (get_queryset request db !! pk); eauto. Qed.

(** A ticket the requester may not change is not in the detail queryset. *)
Lemma get_object_hidden (request : Request) (pk : Z) (db : WorkTable) :
  (∀ w, db !! pk = Some w → ¬ may_change (user request) w) →
  get_object request pk db = Raise NotFound.
Proof.
  intros Hhidden. destruct (get_object_cases request pk db) as [|[w Hw]]; [done|].
  apply get_object_Return in Hw as [Hdb Hmay]. by destruct (Hhidden w Hdb).
Qed.

Lemma not_may_change (ru : RequestUser) (w : Work) :
  ¬ may_change ru w ↔
  user_is_staff ru = false ∧ fk_ne_user (assignee w) ru = true.
Proof.
  unfold may_change. rewrite fk_ne_user_true.
  destruct (user_is_staff ru), (fk_eq_user (assignee w) ru); intuition congruence.
Qed.

(** The guard of [perform_update] and [perform_destroy] lets exactly the
    requesters of [may_change] through. *)
Lemma guard_passes (ru : RequestUser) (w : Work) :
  may_change ru w →
  negb (user_is_staff ru) && fk_ne_user (assignee w) ru = false.
Proof.
  intros [-> | H]; [done|].
  apply fk_ne_user_false in H. rewrite H. apply andb_false_r.
Qed.

Lemma guard_blocks (ru : RequestUser) (w : Work) :
  ¬ may_change ru w →
  negb (user_is_staff ru) && fk_ne_user (assignee w) ru = true.
Proof. intros [-> ->]%not_may_change. done. Qed.

Lemma perform_update_allowed (request : Request) (now : Z) (w : Work)
    (vd : ValidatedData) (db : WorkTable) :
  may_change (user request) w →
  perform_update request now {| instance := Some w; validated_data := vd |} db
  = Return (save {| instance := Some w;
                    validated_data := derive_completed_at now vd |} db).
Proof.
  intros Hmay. unfold perform_update. simpl.
  rewrite (guard_passes _ _ Hmay). run_view.
  unfold derive_completed_at, has_status, status_is.
  destruct (vd_status vd) as [s|] eqn:Hs.
  - rewrite bool_decide_eq_true_2 by eauto. simpl.
    destruct (decide (s = COMPLETED)) as [->|Hne].
    + by rewrite bool_decide_eq_true_2.
    + rewrite bool_decide_eq_false_2 by congruence. done.
  - rewrite bool_decide_eq_false_2; [done|]. by intros [? ?].
Qed.

Lemma perform_update_denied (request : Request) (now : Z) (w : Work)
    (vd : ValidatedData) (db : WorkTable) :
  ¬ may_change (user request) w →
  perform_update request now {| instance := Some w; validated_data := vd |} db
  = permission_denied (user request).
Proof.
  intros Hno. unfold perform_update. simpl.
  rewrite (guard_blocks _ _ Hno). run_view.
  unfold permission_denied. by destruct (is_authenticated (user request)).
Qed.

Lemma perform_destroy_allowed (request : Request) (w : Work) (db : WorkTable) :
  may_change (user request) w →
  perform_destroy request w db = Return (delete (id w) db).
Proof.
  intros Hmay. unfold perform_destroy. by rewrite (guard_passes _ _ Hmay).
Qed.

Lemma perform_destroy_denied (request : Request) (w : Work) (db : WorkTable) :
  ¬ may_change (user request) w →
  perform_destroy request w db = permission_denied (user request).
Proof.
  intros Hno. unfold perform_destroy. rewrite (guard_blocks _ _ Hno). run_view.
  unfold permission_denied. by destruct (is_authenticated (user request)).
Qed.

(** The [update] view, step by step. *)
Lemma update_unfold (request : Request) (pk now : Z) (db : WorkTable) :
  is_authenticated (user request) = true →
  update request pk now db =
  match get_object request pk db with
  | Raise e => (failure e, db)
  | Return w =>
      match data request with
      | Malformed errors => (failure (ValidationError errors), db)
      | WellFormed vd =>
          let out := save {| instance := Some w;
                             validated_data := derive_completed_at now vd |} db in
          (success (instance out.1) 200, out.2)
      end
  end.
Proof.
  intros Hauth. unfold update. rewrite (check_permissions_ok _ Hauth). run_view.
  destruct (get_object request pk db) as [w|e] eqn:Hobj; [|done].
  destruct (data request) as [errors|vd]; simpl; [done|].
  apply get_object_Return in Hobj as [_ Hmay].
  by rewrite (perform_update_allowed _ _ _ _ _ Hmay).
Qed.

(** The [destroy] view, step by step. *)
Lemma destroy_unfold (request : Request) (pk : Z) (db : WorkTable) :
  is_authenticated (user request) = true →
  destroy request pk db =
  match get_object request pk db with
  | Raise e => (failure e, db)
  | Return w => (success None 204, delete (id w) db)
  end.
Proof.
  intros Hauth. unfold destroy. rewrite (check_permissions_ok _ Hauth). run_view.
  destruct (get_object request pk db) as [w|e] eqn:Hobj; [|done].
  apply get_object_Return in Hobj as [_ Hmay].
  by rewrite (perform_destroy_allowed _ _ _ Hmay).
Qed.

Lemma anonymous_rejected (ru : RequestUser) :
  is_authenticated ru = false → check_permissions ru = Raise NotAuthenticated.
Proof. unfold check_permissions, permission_denied. by intros ->. Qed.

Lemma update_anonymous (request : Request) (pk now : Z) (db : WorkTable) :
  is_authenticated (user request) = false →
  update request pk now db = (failure NotAuthenticated, db).
Proof. intros H. unfold update. by rewrite (anonymous_rejected _ H). Qed.

Lemma destroy_anonymous (request : Request) (pk : Z) (db : WorkTable) :
  is_authenticated (user request) = false →
  destroy request pk db = (failure NotAuthenticated, db).
Proof. intros H. unfold destroy. by rewrite (anonymous_rejected _ H). Qed.

(** The saved row of an update whose payload carries a status. *)
Lemma apply_derived_status (now : Z) (vd : ValidatedData) (w : Work) (s : WorkStatus) :
  vd_status vd = Some s →
  status (apply_validated (derive_completed_at now vd) w) = s
  ∧ completed_at (apply_validated (derive_completed_at now vd) w)
    = (if decide (s = COMPLETED) then Some now else None).
Proof. intros Hs. unfold derive_completed_at. rewrite Hs. simpl. by rewrite Hs. Qed.



(** C1: an update whose validated data carries a status saves
    completed_at = now when that status is COMPLETED and completed_at =
    null when it is anything else, whatever the ticket's status was
    before.  The update is one the requester may perform (staff or
    assignee); it then always saves. *)
Theorem perform_update_sets_completed_at
    (request : Request) (now : Z) (w : Work) (vd : ValidatedData)
    (db : WorkTable) (s : WorkStatus) :
  vd_status vd = Some s →
  may_change (user request) w →
  ∃ serializer saved,
    perform_update request now {| instance := Some w; validated_data := vd |} db
    = Return (serializer, <[id w := saved]> db)
    ∧ instance serializer = Some saved
    ∧ status saved = s
    ∧ (s = COMPLETED → completed_at saved = Some now)
    ∧ (s ≠ COMPLETED → completed_at saved = None).
Proof.
  intros Hs Hmay.
  rewrite (perform_update_allowed _ _ _ _ _ Hmay). unfold save. simpl.
  eexists _, _. split; [reflexivity|]. split; [reflexivity|].
  destruct (apply_derived_status now vd w s Hs) as [Hst Hc].
  split; [exact Hst|]. rewrite Hc.
  by destruct (decide (s = COMPLETED)).
Qed.


Lemma next_pk_fresh (db : WorkTable) : db !! next_pk db = None.
Proof. apply not_elem_of_dom. unfold next_pk. apply is_fresh. Qed.

(** The [create] view, step by step. *)
Lemma create_unfold (request : Request) (db : WorkTable) :
  create request db =
  match user request with
  | AnonymousUser => (failure NotAuthenticated, db)
  | LoggedIn u =>
      match data request with
      | Malformed errors => (failure (ValidationError errors), db)
      | WellFormed vd =>
          if is_staff u
          then (success (Some (created_work u vd db)) 201,
                <[next_pk db := created_work u vd db]> db)
          else (failure PermissionDenied, db)
      end
  end.
Proof.
  unfold create, perform_create, check_permissions, permission_denied.
  destruct (user request) as [|u]; [done|]. run_view.
  destruct (data request) as [errors|vd]; [done|]. simpl.
  destruct (is_staff u); [|done]. simpl.
  unfold created_work, save. simpl.
  by destruct (assignee_unspecified vd).
Qed.

Lemma created_work_assignee (u : User) (vd : ValidatedData) (db : WorkTable) :
  assignee (created_work u vd db)
  = match vd_assignee vd with
    | Some (Some a) => Some a
    | _ => Some u
    end.
Proof.
  unfold created_work, assignee_unspecified.
  destruct (vd_assignee vd) as [[a|]|] eqn:Hvd; simpl; by rewrite ?Hvd.
Qed.

Lemma created_work_id (u : User) (vd : ValidatedData) (db : WorkTable) :
  id (created_work u vd db) = next_pk db.
Proof. done. Qed.

(** C6: a staff user's create with no assignee in the validated data
    (key absent, or null) stores the requester as assignee; a named
    assignee is kept.  The create answers 201 with the stored row, which
    is a new row of the table. *)
Theorem create_assignee_defaults_to_requester
    (request : Request) (u : User) (vd : ValidatedData) (db : WorkTable) :
  user request = LoggedIn u →
  is_staff u = true →
  data request = WellFormed vd →
  ∃ created,
    create request db = (success (Some created) 201, <[id created := created]> db)
    ∧ db !! id created = None
    ∧ (vd_assignee vd = None ∨ vd_assignee vd = Some None →
       assignee created = Some u)
    ∧ (∀ a, vd_assignee vd = Some (Some a) → assignee created = Some a).
Proof.
  intros Hu Hstaff Hdata. exists (created_work u vd db).
  rewrite create_unfold, Hu, Hdata, Hstaff, created_work_id.
  split; [done|]. split; [apply next_pk_fresh|].
  rewrite created_work_assignee.
  split.
  - by intros [->| ->].
  - by intros a ->.
Qed.

(** C10: whatever the create endpoint is sent, every row of the table
    afterwards is either a row that was there before or has an assignee;
    a 201 answer carries the stored, newly keyed row and that row has an
    assignee. *)
Theorem create_never_stores_unassigned
    (request : Request) (db : WorkTable) (resp : Response Work) (db' : WorkTable) :
  create request db = (resp, db') →
  (∀ k w, db' !! k = Some w → db !! k = Some w ∨ is_Some (assignee w))
  ∧ (status_code resp = 201%Z →
     ∃ w, response_data resp = Some w ∧ db' !! id w = Some w
          ∧ db !! id w = None ∧ is_Some (assignee w)).
Proof.
  rewrite create_unfold.
  destruct (user request) as [|u]; [by intros [= <- <-]; split; [eauto|]|].
  destruct (data request) as [errors|vd]; [by intros [= <- <-]; split; [eauto|]|].
  destruct (is_staff u); [|by intros [= <- <-]; split; [eauto|]].
  assert (Hassigned : is_Some (assignee (created_work u vd db))).
  { rewrite created_work_assignee. destruct (vd_assignee vd) as [[a|]|]; eauto. }
  intros [= <- <-]. split.
  - intros k w Hk. destruct (decide (next_pk db = k)) as [<-|Hne].
    + rewrite lookup_insert_eq in Hk. injection Hk as <-. by right.
    + rewrite lookup_insert_ne in Hk by done. by left.
  - intros _. exists (created_work u vd db). simpl.
    rewrite lookup_insert_eq. split; [done|]. split; [done|].
    split; [apply next_pk_fresh|done].
Qed.

(** C5, as the code has it: a create by an authenticated non-staff user
    never changes the table; it is answered 403 when the payload passes
    validation and 400 when it does not, validation coming first. *)
Theorem create_refuses_non_staff (request : Request) (db : WorkTable) :
  is_authenticated (user request) = true →
  user_is_staff (user request) = false →
  (create request db).2 = db
  ∧ status_code (create request db).1
    = match data request with
      | Malformed _ => 400%Z
      | WellFormed _ => 403%Z
      end.
Proof.
  intros Hauth Hstaff. rewrite create_unfold.
  destruct (user request) as [|u]; [done|]. simpl in Hstaff.
  destruct (data request) as [errors|vd]; [done|].
  by rewrite Hstaff.
Qed.

(** C7: the list queryset is the whole table for a staff requester, and
    for a non-staff requester exactly the rows whose assignee is the
    requester (the assignee's key is the requester's key), so a row
    assigned to another user, or to nobody, is never in it. *)
Theorem list_scoped_by_role (request : Request) (u : User) (db : WorkTable) :
  user request = LoggedIn u →
  (is_staff u = true → list_get_queryset request db = db)
  ∧ (is_staff u = false →
     ∀ k w, list_get_queryset request db !! k = Some w ↔
            db !! k = Some w
            ∧ ∃ a, assignee w = Some a ∧ user_pk a = user_pk u).
Proof.
  intros Hu. unfold list_get_queryset. rewrite Hu. simpl.
  split; intros ->; [done|].
  intros k w. rewrite filter_assignee_lookup, fk_eq_user_spec.
  split.
  - intros [Hdb (a & u' & Ha & [= <-] & Hpk)]. eauto.
  - intros [Hdb (a & Ha & Hpk)]. split; [done|]. by exists a, u.
Qed.

Lemma retrieve_unfold (request : Request) (pk : Z) (db : WorkTable) :
  is_authenticated (user request) = true →
  retrieve request pk db =
  match get_object request pk db with
  | Raise e => (failure e, db)
  | Return w => (success (Some w) 200, db)
  end.
Proof.
  intros Hauth. unfold retrieve. rewrite (check_permissions_ok _ Hauth). run_view.
  by destruct (get_object request pk db).
Qed.

(** A ticket the requester may not change answers 404 on every detail
    operation, and nothing is written. *)
Lemma detail_not_found (request : Request) (pk now : Z) (db : WorkTable) :
  is_authenticated (user request) = true →
  (∀ w, db !! pk = Some w → ¬ may_change (user request) w) →
  retrieve request pk db = (failure NotFound, db)
  ∧ update request pk now db = (failure NotFound, db)
  ∧ destroy request pk db = (failure NotFound, db).
Proof.
  intros Hauth Hhidden.
  rewrite (retrieve_unfold _ _ _ Hauth), (update_unfold _ _ _ _ Hauth),
    (destroy_unfold _ _ _ Hauth), (get_object_hidden _ _ _ Hhidden).
  done.
Qed.

Lemma update_success_inv (request : Request) (pk now : Z) (db : WorkTable) :
  status_code (update request pk now db).1 = 200%Z →
  ∃ w, db !! pk = Some w ∧ may_change (user request) w.
Proof.
  destruct (is_authenticated (user request)) eqn:Hauth;
    [|by rewrite (update_anonymous _ _ _ _ Hauth)].
  rewrite (update_unfold _ _ _ _ Hauth).
  destruct (get_object request pk db) as [w|e] eqn:Hobj.
  - intros _. exists w. by apply get_object_Return.
  - by destruct e.
Qed.

Lemma destroy_success_inv (request : Request) (pk : Z) (db : WorkTable) :
  status_code (destroy request pk db).1 = 204%Z →
  ∃ w, db !! pk = Some w ∧ may_change (user request) w.
Proof.
  destruct (is_authenticated (user request)) eqn:Hauth;
    [|by rewrite (destroy_anonymous _ _ _ Hauth)].
  rewrite (destroy_unfold _ _ _ Hauth).
  destruct (get_object request pk db) as [w|e] eqn:Hobj.
  - intros _. exists w. by apply get_object_Return.
  - by destruct e.
Qed.

(** C3, as the code has it: an update or delete of a stored ticket
    succeeds only for staff or the ticket's assignee.  Any other
    authenticated requester is answered 404 by the view, because the
    detail queryset does not contain the ticket, and the table is left
    as it was; the check inside perform_update and perform_destroy
    raises 403 before anything is saved or deleted. *)
Theorem change_requires_staff_or_assignee
    (request : Request) (pk now : Z) (db : WorkTable) (w : Work) :
  db !! pk = Some w →
  (status_code (update request pk now db).1 = 200%Z
   ∨ status_code (destroy request pk db).1 = 204%Z →
   may_change (user request) w)
  ∧ (is_authenticated (user request) = true →
     user_is_staff (user request) = false →
     fk_ne_user (assignee w) (user request) = true →
     update request pk now db = (failure NotFound, db)
     ∧ destroy request pk db = (failure NotFound, db)
     ∧ (∀ vd, perform_update request now
                {| instance := Some w; validated_data := vd |} db
              = Raise PermissionDenied)
     ∧ perform_destroy request w db = Raise PermissionDenied).
Proof.
  intros Hdb. split.
  - intros [H|H].
    + apply update_success_inv in H as (w' & Hw' & Hmay). congruence.
    + apply destroy_success_inv in H as (w' & Hw' & Hmay). congruence.
  - intros Hauth Hstaff Hne.
    assert (Hno : ¬ may_change (user request) w) by by apply not_may_change.
    assert (Hhidden : ∀ w', db !! pk = Some w' → ¬ may_change (user request) w')
      by (intros w' Hw'; congruence).
    destruct (detail_not_found request pk now db Hauth Hhidden) as (_ & Hupd & Hdel).
    split; [done|]. split; [done|]. split.
    + intros vd. rewrite (perform_update_denied _ _ _ _ _ Hno).
      unfold permission_denied. by rewrite Hauth.
    + rewrite (perform_destroy_denied _ _ _ Hno).
      unfold permission_denied. by rewrite Hauth.
Qed.


End WorkFacts.

(** ** The Like endpoints *)

Module LikeFacts.
Import Like LikeSpec.

Lemma same_target_spec (u : User) (ct : ContentType) (oid : Z) (l : Like) :
  same_target u ct oid l = true ↔
  user_pk (user l) = user_pk u
  ∧ ct_pk (content_type l) = ct_pk ct
  ∧ object_id l = oid.
Proof.
  unfold same_target, user_eqb.
  rewrite !andb_true_iff, !bool_decide_eq_true. tauto.
Qed.

Lemma likes_of_lookup (u : User) (ct : ContentType) (oid : Z) (db : LikeTable)
    (k : Z) (l : Like) :
  likes_of u ct oid db !! k = Some l ↔
  db !! k = Some l ∧ same_target u ct oid l = true.
Proof. unfold likes_of. by rewrite map_lookup_filter_Some. Qed.

Lemma exists_likes_of (u : User) (ct : ContentType) (oid : Z) (db : LikeTable) :
  exists_ (likes_of u ct oid db) = true ↔ liked u ct oid db.
Proof.
  unfold exists_, liked. rewrite bool_decide_eq_true. split.
  - intros (k & l & Hkl)%map_choose. exists k, l. by apply likes_of_lookup.
  - intros (k & l & Hkl) Hempty.
    apply likes_of_lookup in Hkl. rewrite Hempty in Hkl. by rewrite lookup_empty in Hkl.
Qed.

Lemma not_liked_empty (u : User) (ct : ContentType) (oid : Z) (db : LikeTable) :
  ¬ liked u ct oid db → likes_of u ct oid db = ∅.
Proof.
  intros Hno. apply map_empty. intros k.
  destruct (likes_of u ct oid db !! k) as [l|] eqn:Hk; [|done].
  destruct Hno. exists k, l. by apply likes_of_lookup.
Qed.

(** Under the unique constraint the matching rows are one row. *)
Lemma likes_of_singleton (u : User) (ct : ContentType) (oid : Z) (db : LikeTable)
    (k : Z) (l : Like) :
  unique_together db →
  db !! k = Some l → same_target u ct oid l = true →
  likes_of u ct oid db = {[ k := l ]}.
Proof.
  intros Huniq Hk Hl. apply map_eq. intros i.
  destruct (decide (k = i)) as [<-|Hne].
  - rewrite lookup_singleton_eq. by apply likes_of_lookup.
  - rewrite lookup_singleton_ne by done.
    destruct (likes_of u ct oid db !! i) as [l'|] eqn:Hi; [|done].
    apply likes_of_lookup in Hi as [Hi Hl']. destruct Hne.
    apply (Huniq k i l l' Hk Hi).
    apply same_target_spec in Hl as (? & ? & ?).
    apply same_target_spec in Hl' as (? & ? & ?).
    apply same_target_spec. repeat split; congruence.
Qed.

Lemma like_next_pk_fresh (db : LikeTable) : db !! next_pk db = None.
Proof. apply not_elem_of_dom. unfold next_pk. apply is_fresh. Qed.

(** The two outcomes of a create, in terms of the endpoint's own lookup. *)
Lemma create_by_lookup
    (u : User) (ct : ContentType) (oid now : Z) (db : LikeTable) :
  unique_together db →
  (liked u ct oid db →
     create (mkRequest (LoggedIn u) (Target ct oid)) now db
     = (failure (ValidationError "You have already liked this item."), db)
     ∧ status_code (create (mkRequest (LoggedIn u) (Target ct oid)) now db).1 = 400%Z
     ∧ count (likes_of u ct oid
                (create (mkRequest (LoggedIn u) (Target ct oid)) now db).2) = 1)
  ∧ (¬ liked u ct oid db →
     ∃ l, create (mkRequest (LoggedIn u) (Target ct oid)) now db
          = (success (Some (to_representation l)) 201, <[id l := l]> db)
          ∧ db !! id l = None
          ∧ user l = u ∧ content_type l = ct ∧ object_id l = oid
          ∧ content_type_name (to_representation l) = model ct
          ∧ count (likes_of u ct oid (<[id l := l]> db)) = 1).
Proof.
  intros Huniq. unfold create. simpl. run_view. split.
  - intros Hliked.
    rewrite (proj2 (exists_likes_of u ct oid db) Hliked). simpl.
    split; [done|]. split; [done|].
    destruct Hliked as (k & l & Hk & Hl).
    rewrite (likes_of_singleton u ct oid db k l Huniq Hk Hl).
    apply map_size_singleton.
  - intros Hno.
    destruct (exists_ (likes_of u ct oid db)) eqn:Hex;
      [by apply exists_likes_of in Hex|].
    exists {| id := next_pk db; user := u; content_type := ct;
              object_id := oid; created_at := now |}.
    split; [reflexivity|]. simpl.
    split; [apply like_next_pk_fresh|]. do 4 (split; [done|]).
    unfold likes_of. rewrite map_filter_insert_True.
    + fold (likes_of u ct oid db). rewrite (not_liked_empty _ _ _ _ Hno).
      unfold count. rewrite insert_empty. apply map_size_singleton.
    + simpl. apply same_target_spec. done.
Qed.

Lemma has_like_liked (u : User) (ct : ContentType) (oid : Z) (db : LikeTable) :
  has_like u ct oid db ↔ liked u ct oid db.
Proof.
  unfold has_like, liked. split.
  - intros (k & l & Hk & Hl). exists k, l. split; [done|]. by apply same_target_spec.
  - intros (k & l & Hk & Hl%same_target_spec). by exists k, l.
Qed.

Lemma one_like_per_item_unique (db : LikeTable) :
  one_like_per_item db → unique_together db.
Proof.
  intros Hone k1 k2 l1 l2 H1 H2 (Hu & Hct & Hoid)%same_target_spec.
  by apply (Hone k1 k2 l1 l2).
Qed.

Lemma like_count_likes_of (u : User) (ct : ContentType) (oid : Z) (db : LikeTable) :
  like_count u ct oid db = count (likes_of u ct oid db).
Proof.
  unfold like_count, count, likes_of. f_equal.
  apply map_filter_ext. intros k l _. simpl. by rewrite same_target_spec.
Qed.

(** C2: with a like of item I by user U already stored (a row with U's
    key, I's content type key and I's object id), U's POST for I answers
    400 with the message "You have already liked this item." and the
    number of stored likes of I by U is still 1; with no such row stored,
    the POST answers 201 with the new record, whose content_type_name is
    the content type's model name, and that number becomes 1.  The store
    holds at most one like per user and item. *)
Theorem like_twice_is_rejected
    (u : User) (ct : ContentType) (oid now : Z) (db : LikeTable) :
  one_like_per_item db →
  (has_like u ct oid db →
     create (mkRequest (LoggedIn u) (Target ct oid)) now db
     = (failure (ValidationError "You have already liked this item."), db)
     ∧ status_code (create (mkRequest (LoggedIn u) (Target ct oid)) now db).1 = 400%Z
     ∧ like_count u ct oid
         (create (mkRequest (LoggedIn u) (Target ct oid)) now db).2 = 1)
  ∧ (¬ has_like u ct oid db →
     ∃ l d,
       create (mkRequest (LoggedIn u) (Target ct oid)) now db
       = (success (Some d) 201, <[id l := l]> db)
       ∧ db !! id l = None
       ∧ user l = u ∧ content_type l = ct ∧ object_id l = oid
       ∧ data_id d = id l
       ∧ data_user d = user_pk u
       ∧ data_content_type d = ct_pk ct
       ∧ data_object_id d = oid
       ∧ content_type_name d = model ct
       ∧ like_count u ct oid (<[id l := l]> db) = 1).
Proof.
  intros Hone.
  destruct (create_by_lookup u ct oid now db (one_like_per_item_unique db Hone))
    as [Htwice Hfirst].
  split.
  - intros Hhas%has_like_liked. rewrite like_count_likes_of. by apply Htwice.
  - intros Hno.
    destruct Hfirst as (l & Hcreate & Hfresh & Hu & Hct & Hoid & Hname & Hcount).
    { by rewrite <- has_like_liked. }
    exists l, (to_representation l). rewrite like_count_likes_of.
    split; [done|]. do 4 (split; [done|]).
    unfold to_representation. simpl. rewrite Hu, Hct, Hoid. done.
Qed.

(** C8: a DELETE of a stored like by an authenticated user who is not
    its owner answers 403 and the like is still stored; a DELETE by the
    owner answers 204 and the like is gone. *)
Theorem like_destroy_owner_only (u : User) (pk : Z) (db : LikeTable) (l : Like) :
  db !! pk = Some l →
  (user_pk (user l) ≠ user_pk u →
     destroy (LoggedIn u) pk db = (failure PermissionDenied, db)
     ∧ status_code (destroy (LoggedIn u) pk db).1 = 403%Z
     ∧ (destroy (LoggedIn u) pk db).2 !! pk = Some l)
  ∧ (user_pk (user l) = user_pk u →
     destroy (LoggedIn u) pk db = (success None 204, delete pk db)
     ∧ status_code (destroy (LoggedIn u) pk db).1 = 204%Z
     ∧ (destroy (LoggedIn u) pk db).2 !! pk = None).
Proof.
  intros Hpk. unfold destroy. simpl. run_view. rewrite Hpk.
  unfold fk_ne_user, fk_eq_user, user_eqb. split; intros Howner.
  - rewrite bool_decide_eq_false_2 by done. simpl. done.
  - rewrite bool_decide_eq_true_2 by done. simpl.
    split; [done|]. split; [done|]. apply lookup_delete_eq.
Qed.

End LikeFacts.

(** ** The statements at the sample data *)

Module WorkExamples.
Import Work WorkSpec WorkFacts Sample Sample2.

(** The scenario of the specification: completing the ticket sets
    completed_at, moving it away from COMPLETED clears it again. *)
Example complete_then_reopen :
  let after_complete := (update (alice_sets COMPLETED) 1 99 tickets).2 in
  let after_reopen := (update (alice_sets PENDING) 1 120 after_complete).2 in
  (completed_at <$> after_complete !! 1%Z) = Some (Some 99%Z)
  ∧ (completed_at <$> after_reopen !! 1%Z) = Some None.
Proof. vm_compute. done. Qed.


Lemma perform_update_sets_completed_at_witness :
  vd_status (only_status COMPLETED) = Some COMPLETED
  ∧ may_change (user (alice_sets COMPLETED)) ticket
  ∧ ∃ serializer saved,
      perform_update (alice_sets COMPLETED) 99
        {| instance := Some ticket; validated_data := only_status COMPLETED |} tickets
      = Return (serializer, <[id ticket := saved]> tickets)
      ∧ instance serializer = Some saved
      ∧ status saved = COMPLETED
      ∧ (COMPLETED = COMPLETED → completed_at saved = Some 99%Z)
      ∧ (COMPLETED ≠ COMPLETED → completed_at saved = None).
Proof.
  split; [reflexivity|]. split; [right; reflexivity|].
  apply (perform_update_sets_completed_at (alice_sets COMPLETED) 99 ticket
           (only_status COMPLETED) tickets COMPLETED);
    [reflexivity | right; reflexivity].
Defined.



Lemma create_assignee_defaults_to_requester_witness :
  (∃ created,
     create admin_titles tickets
     = (success (Some created) 201, <[id created := created]> tickets)
     ∧ tickets !! id created = None
     ∧ assignee created = Some admin)
  ∧ (∃ created,
       create admin_creates_unassigned tickets
       = (success (Some created) 201, <[id created := created]> tickets)
       ∧ assignee created = Some admin)
  ∧ (∃ created,
       create admin_creates tickets
       = (success (Some created) 201, <[id created := created]> tickets)
       ∧ assignee created = Some alice).
Proof.
  split; [|split].
  - destruct (create_assignee_defaults_to_requester admin_titles admin
                (only_title "ship") tickets eq_refl eq_refl eq_refl)
      as (created & Hcreate & Hfresh & Habsent & _).
    exists created. split; [exact Hcreate|]. split; [exact Hfresh|].
    apply Habsent. left. reflexivity.
  - destruct (create_assignee_defaults_to_requester admin_creates_unassigned admin
                null_assignee tickets eq_refl eq_refl eq_refl)
      as (created & Hcreate & _ & Hnull & _).
    exists created. split; [exact Hcreate|].
    apply Hnull. right. reflexivity.
  - destruct (create_assignee_defaults_to_requester admin_creates admin
                completed_for_alice tickets eq_refl eq_refl eq_refl)
      as (created & Hcreate & _ & _ & Hnamed).
    exists created. split; [exact Hcreate|].
    apply (Hnamed alice). reflexivity.
Defined.

Lemma create_never_stores_unassigned_witness :
  (∀ k w, (create admin_titles tickets).2 !! k = Some w →
          tickets !! k = Some w ∨ is_Some (assignee w))
  ∧ (status_code (create admin_titles tickets).1 = 201%Z →
     ∃ w, response_data (create admin_titles tickets).1 = Some w
          ∧ (create admin_titles tickets).2 !! id w = Some w
          ∧ tickets !! id w = None ∧ is_Some (assignee w)).
Proof.
  apply (create_never_stores_unassigned admin_titles tickets).
  apply surjective_pairing.
Defined.

(** C5 as stated fails: alice is authenticated and not staff, her
    payload does not validate, and the answer is 400, not 403. *)
Lemma create_malformed_by_non_staff_is_400 :
  is_authenticated (user alice_garbles) = true
  ∧ user_is_staff (user alice_garbles) = false
  ∧ status_code (create alice_garbles tickets).1 = 400%Z
  ∧ status_code (create alice_garbles tickets).1 ≠ 403%Z.
Proof. vm_compute. repeat split; done. Qed.

Lemma create_refuses_non_staff_witness :
  (create alice_titles tickets).2 = tickets
  ∧ status_code (create alice_titles tickets).1 = 403%Z.
Proof.
  apply (create_refuses_non_staff alice_titles tickets); reflexivity.
Defined.

Lemma list_scoped_by_role_witness :
  list_get_queryset admin_titles two_tickets = two_tickets
  ∧ list_get_queryset alice_titles two_tickets !! 1%Z = Some ticket
  ∧ (∀ k w, list_get_queryset alice_titles two_tickets !! k = Some w →
            two_tickets !! k = Some w
            ∧ ∃ a, assignee w = Some a ∧ user_pk a = user_pk alice)
  ∧ (∀ k w, list_get_queryset (bob_sets PENDING) two_tickets !! k = Some w →
            ∃ a, assignee w = Some a ∧ user_pk a = user_pk bob).
Proof.
  split; [|split; [|split]].
  - apply (proj1 (list_scoped_by_role admin_titles admin two_tickets eq_refl)).
    reflexivity.
  - apply (proj2 (list_scoped_by_role alice_titles alice two_tickets eq_refl)
             eq_refl 1%Z ticket).
    split; [reflexivity|]. exists alice. split; reflexivity.
  - intros k w.
    apply (proj2 (list_scoped_by_role alice_titles alice two_tickets eq_refl)
             eq_refl k w).
  - intros k w Hk.
    apply (proj2 (list_scoped_by_role (bob_sets PENDING) bob two_tickets eq_refl)
             eq_refl k w) in Hk.
    exact (proj2 Hk).
Defined.

(** C3 as stated fails: bob is authenticated, not staff and not the
    assignee of ticket 1, and both his update and his delete are
    answered 404, not 403. *)
Lemma change_by_stranger_is_404 :
  tickets !! 1%Z = Some ticket
  ∧ is_authenticated (user (bob_sets COMPLETED)) = true
  ∧ user_is_staff (user (bob_sets COMPLETED)) = false
  ∧ fk_ne_user (assignee ticket) (user (bob_sets COMPLETED)) = true
  ∧ status_code (update (bob_sets COMPLETED) 1 99 tickets).1 = 404%Z
  ∧ status_code (update (bob_sets COMPLETED) 1 99 tickets).1 ≠ 403%Z
  ∧ status_code (destroy (bob_sets COMPLETED) 1 tickets).1 = 404%Z
  ∧ status_code (destroy (bob_sets COMPLETED) 1 tickets).1 ≠ 403%Z.
Proof. vm_compute. repeat split; done. Qed.

Lemma change_requires_staff_or_assignee_witness :
  update (bob_sets COMPLETED) 1 99 tickets = (failure NotFound, tickets)
  ∧ destroy (bob_sets COMPLETED) 1 tickets = (failure NotFound, tickets)
  ∧ (∀ vd, perform_update (bob_sets COMPLETED) 99
             {| instance := Some ticket; validated_data := vd |} tickets
           = Raise PermissionDenied)
  ∧ perform_destroy (bob_sets COMPLETED) ticket tickets = Raise PermissionDenied.
Proof.
  apply (proj2 (change_requires_staff_or_assignee (bob_sets COMPLETED) 1 99
                  tickets ticket eq_refl)); reflexivity.
Defined.


End WorkExamples.

Module LikeExamples.
Import Like LikeSpec LikeFacts Sample.

Lemma sample_unique_together : unique_together likes.
Proof.
  unfold likes.
  intros k1 k2 l1 l2 [<- _]%lookup_singleton_Some [<- _]%lookup_singleton_Some _.
  reflexivity.
Qed.

Lemma sample_liked : liked bob order_type 10 likes.
Proof. exists 1%Z, bobs_like. split; reflexivity. Qed.

Lemma sample_one_like_per_item : one_like_per_item likes.
Proof.
  unfold likes.
  intros k1 k2 l1 l2 [<- _]%lookup_singleton_Some [<- _]%lookup_singleton_Some _ _ _.
  reflexivity.
Qed.

Lemma like_twice_is_rejected_witness :
  (create (mkRequest (LoggedIn bob) (Target order_type 10)) 2000 likes
   = (failure (ValidationError "You have already liked this item."), likes)
   ∧ status_code (create (mkRequest (LoggedIn bob) (Target order_type 10)) 2000 likes).1
     = 400%Z
   ∧ like_count bob order_type 10
       (create (mkRequest (LoggedIn bob) (Target order_type 10)) 2000 likes).2 = 1)
  ∧ (∃ l d,
       create (mkRequest (LoggedIn alice) (Target order_type 10)) 2000 likes
       = (success (Some d) 201, <[id l := l]> likes)
       ∧ likes !! id l = None
       ∧ user l = alice ∧ content_type l = order_type ∧ object_id l = 10%Z
       ∧ data_id d = id l
       ∧ data_user d = user_pk alice
       ∧ data_content_type d = ct_pk order_type
       ∧ data_object_id d = 10%Z
       ∧ content_type_name d = model order_type
       ∧ like_count alice order_type 10 (<[id l := l]> likes) = 1).
Proof.
  split.
  - apply (proj1 (like_twice_is_rejected bob order_type 10 2000 likes
                    sample_one_like_per_item)).
    exists 1%Z, bobs_like. repeat split; reflexivity.
  - apply (proj2 (like_twice_is_rejected alice order_type 10 2000 likes
                    sample_one_like_per_item)).
    unfold likes. intros (k & l & [_ <-]%lookup_singleton_Some & Hu & _).
    discriminate Hu.
Defined.

Lemma like_destroy_owner_only_witness :
  destroy (LoggedIn alice) 1 likes = (failure PermissionDenied, likes)
  ∧ status_code (destroy (LoggedIn alice) 1 likes).1 = 403%Z
  ∧ (destroy (LoggedIn alice) 1 likes).2 !! 1%Z = Some bobs_like.
Proof.
  apply (proj1 (like_destroy_owner_only alice 1 likes bobs_like eq_refl)).
  discriminate.
Defined.

End LikeExamples.


(** * Further properties of the Work views *)

Module WorkMore.
Import Work WorkSpec WorkFacts WorkStore.

(** The row an allowed update of [w] saves. *)
Lemma update_visible (request : Request) (pk now : Z) (db : WorkTable) (w : Work) :
  is_authenticated (user request) = true →
  db !! pk = Some w → may_change (user request) w →
  update request pk now db =
  match data request with
  | Malformed errors => (failure (ValidationError errors), db)
  | WellFormed vd =>
      (success (Some (apply_validated (derive_completed_at now vd) w)) 200,
       <[id w := apply_validated (derive_completed_at now vd) w]> db)
  end.
Proof.
  intros Hauth Hdb Hmay. rewrite (update_unfold _ _ _ _ Hauth).
  rewrite (proj2 (get_object_Return request pk db w) (conj Hdb Hmay)).
  by destruct (data request).
Qed.

Lemma update_hidden (request : Request) (pk now : Z) (db : WorkTable) :
  is_authenticated (user request) = true →
  (∀ w, db !! pk = Some w → ¬ may_change (user request) w) →
  update request pk now db = (failure NotFound, db).
Proof.
  intros Hauth Hhidden. rewrite (update_unfold _ _ _ _ Hauth).
  by rewrite (get_object_hidden _ _ _ Hhidden).
Qed.

Lemma may_change_dec (ru : RequestUser) (w : Work) :
  may_change ru w ∨ ¬ may_change ru w.
Proof.
  unfold may_change.
  destruct (user_is_staff ru), (fk_eq_user (assignee w) ru); intuition congruence.
Qed.

(** Either the key names a row the requester may change, or no such row. *)
Lemma visible_or_hidden (request : Request) (pk : Z) (db : WorkTable) :
  (∃ w, db !! pk = Some w ∧ may_change (user request) w)
  ∨ (∀ w, db !! pk = Some w → ¬ may_change (user request) w).
Proof.
  destruct (db !! pk) as [w|] eqn:Hdb; [|by right].
  destruct (may_change_dec (user request) w) as [Hmay|Hno].
  - left. eauto.
  - right. by intros w' [= <-].
Qed.

(** X1: an update answers 200, 400, 401 or 404, and the table is written
    only when the answer is 200. *)
Theorem update_writes_only_on_200 (request : Request) (pk now : Z) (db : WorkTable) :
  (status_code (update request pk now db).1 = 200%Z
   ∨ status_code (update request pk now db).1 = 400%Z
   ∨ status_code (update request pk now db).1 = 401%Z
   ∨ status_code (update request pk now db).1 = 404%Z)
  ∧ (status_code (update request pk now db).1 ≠ 200%Z →
     (update request pk now db).2 = db).
Proof.
  destruct (is_authenticated (user request)) eqn:Hauth;
    [|rewrite (update_anonymous _ _ _ _ Hauth); simpl; tauto].
  destruct (visible_or_hidden request pk db) as [(w & Hdb & Hmay)|Hhidden].
  - rewrite (update_visible _ _ _ _ _ Hauth Hdb Hmay).
    destruct (data request); simpl; [tauto|]. split; [tauto|done].
  - rewrite (update_hidden _ _ _ _ Hauth Hhidden). simpl. tauto.
Qed.

(** X2: in an update the lookup comes before validation.  With a payload
    the serializer rejects, an authenticated requester is answered 404 when
    the key names no ticket it may change, and 400 with the serializer's
    errors when it does; the table is untouched both times. *)
Theorem update_not_found_before_validation
    (request : Request) (pk now : Z) (db : WorkTable) (errors : string) :
  is_authenticated (user request) = true →
  data request = Malformed errors →
  ((∀ w, db !! pk = Some w → ¬ may_change (user request) w) →
   update request pk now db = (failure NotFound, db))
  ∧ (∀ w, db !! pk = Some w → may_change (user request) w →
     update request pk now db = (failure (ValidationError errors), db)).
Proof.
  intros Hauth Hdata. split.
  - apply update_hidden, Hauth.
  - intros w Hdb Hmay. by rewrite (update_visible _ _ _ _ _ Hauth Hdb Hmay), Hdata.
Qed.

Lemma update_succeeds_iff_aux (request : Request) (pk now : Z) (db : WorkTable) :
  status_code (update request pk now db).1 = 200%Z →
  is_authenticated (user request) = true
  ∧ (∃ w, db !! pk = Some w ∧ may_change (user request) w)
  ∧ (∃ vd, data request = WellFormed vd).
Proof.
  destruct (is_authenticated (user request)) eqn:Hauth;
    [|by rewrite (update_anonymous _ _ _ _ Hauth)].
  destruct (visible_or_hidden request pk db) as [(w & Hdb & Hmay)|Hhidden].
  - rewrite (update_visible _ _ _ _ _ Hauth Hdb Hmay).
    destruct (data request) as [errors|vd]; [done|]. eauto 10.
  - by rewrite (update_hidden _ _ _ _ Hauth Hhidden).
Qed.


(** X4: on a table whose rows sit under their own keys, a successful
    update rewrites the row at the requested key and nothing else: every
    other key reads as before, no key is added or removed, and the row
    now stored at the key keeps its id. *)
Theorem update_touches_one_row (request : Request) (pk now : Z) (db : WorkTable) :
  rows_keyed db →
  status_code (update request pk now db).1 = 200%Z →
  (∀ k, k ≠ pk → (update request pk now db).2 !! k = db !! k)
  ∧ dom (update request pk now db).2 = dom db
  ∧ ∃ saved, (update request pk now db).2 !! pk = Some saved
             ∧ id saved = pk.
Proof.
  intros Hkeyed (Hauth & (w & Hdb & Hmay) & (vd & Hdata))%update_succeeds_iff_aux.
  rewrite (update_visible _ _ _ _ _ Hauth Hdb Hmay), Hdata. simpl.
  rewrite (Hkeyed pk w Hdb). split; [|split].
  - intros k Hk. by rewrite lookup_insert_ne.
  - apply dom_insert_lookup_L. eauto.
  - eexists. rewrite lookup_insert_eq. split; [done|].
    simpl. by apply Hkeyed.
Qed.

Lemma destroy_visible (request : Request) (pk : Z) (db : WorkTable) (w : Work) :
  is_authenticated (user request) = true →
  db !! pk = Some w → may_change (user request) w →
  destroy request pk db = (success None 204, delete (id w) db).
Proof.
  intros Hauth Hdb Hmay. rewrite (destroy_unfold _ _ _ Hauth).
  by rewrite (proj2 (get_object_Return request pk db w) (conj Hdb Hmay)).
Qed.

Lemma destroy_hidden (request : Request) (pk : Z) (db : WorkTable) :
  is_authenticated (user request) = true →
  (∀ w, db !! pk = Some w → ¬ may_change (user request) w) →
  destroy request pk db = (failure NotFound, db).
Proof.
  intros Hauth Hhidden. rewrite (destroy_unfold _ _ _ Hauth).
  by rewrite (get_object_hidden _ _ _ Hhidden).
Qed.

Lemma destroy_204_inv (request : Request) (pk : Z) (db : WorkTable) :
  status_code (destroy request pk db).1 = 204%Z →
  is_authenticated (user request) = true
  ∧ ∃ w, db !! pk = Some w ∧ may_change (user request) w.
Proof.
  destruct (is_authenticated (user request)) eqn:Hauth;
    [|by rewrite (destroy_anonymous _ _ _ Hauth)].
  destruct (visible_or_hidden request pk db) as [(w & Hdb & Hmay)|Hhidden].
  - eauto.
  - by rewrite (destroy_hidden _ _ _ Hauth Hhidden).
Qed.

Lemma retrieve_visible (request : Request) (pk : Z) (db : WorkTable) (w : Work) :
  is_authenticated (user request) = true →
  db !! pk = Some w → may_change (user request) w →
  retrieve request pk db = (success (Some w) 200, db).
Proof.
  intros Hauth Hdb Hmay. rewrite (retrieve_unfold _ _ _ Hauth).
  by rewrite (proj2 (get_object_Return request pk db w) (conj Hdb Hmay)).
Qed.

Lemma rows_keyed_insert (db : WorkTable) (w : Work) :
  rows_keyed db → rows_keyed (<[id w := w]> db).
Proof.
  intros Hkeyed k w' Hk. destruct (decide (id w = k)) as [<-|Hne].
  - rewrite lookup_insert_eq in Hk. by injection Hk as <-.
  - rewrite lookup_insert_ne in Hk by done. by apply Hkeyed.
Qed.

Lemma rows_keyed_delete (db : WorkTable) (k : Z) :
  rows_keyed db → rows_keyed (delete k db).
Proof.
  intros Hkeyed k' w Hk. apply lookup_delete_Some in Hk as [_ Hk]. by apply Hkeyed.
Qed.

(** The views keep every row stored under its own key, so the tables the
    statements below assume are the ones the views produce. *)
Lemma views_keep_rows_keyed (request : Request) (pk now : Z) (db : WorkTable) :
  rows_keyed db →
  rows_keyed (create request db).2
  ∧ rows_keyed (update request pk now db).2
  ∧ rows_keyed (destroy request pk db).2.
Proof.
  intros Hkeyed. split; [|split].
  - rewrite create_unfold.
    destruct (user request) as [|u]; [done|].
    destruct (data request) as [errors|vd]; [done|].
    destruct (is_staff u); [|done]. simpl.
    rewrite <- (created_work_id u vd db) at 1. by apply rows_keyed_insert.
  - destruct (is_authenticated (user request)) eqn:Hauth;
      [|by rewrite (update_anonymous _ _ _ _ Hauth)].
    destruct (visible_or_hidden request pk db) as [(w & Hdb & Hmay)|Hhidden].
    + rewrite (update_visible _ _ _ _ _ Hauth Hdb Hmay).
      destruct (data request) as [errors|vd]; [done|]. simpl.
      by apply (rows_keyed_insert db (apply_validated (derive_completed_at now vd) w)).
    + by rewrite (update_hidden _ _ _ _ Hauth Hhidden).
  - destruct (is_authenticated (user request)) eqn:Hauth;
      [|by rewrite (destroy_anonymous _ _ _ Hauth)].
    destruct (visible_or_hidden request pk db) as [(w & Hdb & Hmay)|Hhidden].
    + rewrite (destroy_visible _ _ _ _ Hauth Hdb Hmay). simpl.
      by apply rows_keyed_delete.
    + by rewrite (destroy_hidden _ _ _ Hauth Hhidden).
Qed.

(** X6: an allowed update whose validated data has no status key saves the
    payload as it came: the status stays, and completed_at is the
    payload's own value when it has that key and stays otherwise. *)
Theorem update_without_status_leaves_completed_at
    (request : Request) (now : Z) (w : Work) (vd : ValidatedData) (db : WorkTable) :
  vd_status vd = None →
  may_change (user request) w →
  ∃ serializer saved,
    perform_update request now {| instance := Some w; validated_data := vd |} db
    = Return (serializer, <[id w := saved]> db)
    ∧ instance serializer = Some saved
    ∧ saved = apply_validated vd w
    ∧ status saved = status w
    ∧ completed_at saved = default (completed_at w) (vd_completed_at vd).
Proof.
  intros Hs Hmay. rewrite (perform_update_allowed _ _ _ _ _ Hmay).
  unfold derive_completed_at, save. rewrite Hs. simpl.
  eexists _, _. split; [reflexivity|]. split; [reflexivity|].
  split; [reflexivity|]. simpl. by rewrite Hs.
Qed.

Lemma default_default {A} (x : A) (o : option A) :
  default (default x o) o = default x o.
Proof. by destruct o. Qed.

Lemma apply_validated_twice (vd : ValidatedData) (w : Work) :
  apply_validated vd (apply_validated vd w) = apply_validated vd w.
Proof. unfold apply_validated. simpl. by rewrite !default_default. Qed.

Lemma apply_validated_id (vd : ValidatedData) (w : Work) :
  id (apply_validated vd w) = id w.
Proof. done. Qed.

Lemma apply_validated_assignee (vd : ValidatedData) (w : Work) :
  assignee (apply_validated vd w) = default (assignee w) (vd_assignee vd).
Proof. done. Qed.

Lemma derive_keeps_assignee (now : Z) (vd : ValidatedData) :
  vd_assignee (derive_completed_at now vd) = vd_assignee vd.
Proof. unfold derive_completed_at. by destruct (vd_status vd). Qed.

(** X7: a non-staff assignee whose update names someone else (or nobody)
    as assignee succeeds and thereby loses the ticket: from then on its
    own retrieve, update and delete of that key answer 404. *)
Theorem handing_over_loses_access
    (request : Request) (u : User) (pk now : Z) (db : WorkTable)
    (w : Work) (vd : ValidatedData) (new_assignee : option User) :
  rows_keyed db →
  user request = LoggedIn u → is_staff u = false →
  db !! pk = Some w → fk_eq_user (assignee w) (LoggedIn u) = true →
  data request = WellFormed vd →
  vd_assignee vd = Some new_assignee →
  fk_eq_user new_assignee (LoggedIn u) = false →
  status_code (update request pk now db).1 = 200%Z
  ∧ ∀ request' now',
      user request' = LoggedIn u →
      retrieve request' pk (update request pk now db).2
      = (failure NotFound, (update request pk now db).2)
      ∧ update request' pk now' (update request pk now db).2
        = (failure NotFound, (update request pk now db).2)
      ∧ destroy request' pk (update request pk now db).2
        = (failure NotFound, (update request pk now db).2).
Proof.
  intros Hkeyed Hu Hstaff Hdb Hmine Hdata Hvd Hother.
  assert (Hauth : is_authenticated (user request) = true) by by rewrite Hu.
  assert (Hmay : may_change (user request) w) by (right; by rewrite Hu).
  rewrite (update_visible _ _ _ _ _ Hauth Hdb Hmay), Hdata. simpl.
  split; [done|]. intros request' now' Hu'.
  apply detail_not_found; [by rewrite Hu'|].
  rewrite (Hkeyed pk w Hdb), lookup_insert_eq. intros w' [= <-].
  apply not_may_change. rewrite Hu'. split; [exact Hstaff|].
  apply fk_ne_user_true.
  by rewrite apply_validated_assignee, derive_keeps_assignee, Hvd.
Qed.

(** X8: for a staff requester on a table whose rows sit under their own
    keys, sending the same update a second time (at the same instant)
    answers the same and leaves the table as the first left it. *)
Theorem staff_update_twice (request : Request) (pk now : Z) (db : WorkTable) :
  rows_keyed db →
  user_is_staff (user request) = true →
  update request pk now (update request pk now db).2 = update request pk now db.
Proof.
  intros Hkeyed Hstaff.
  assert (Hauth := staff_is_authenticated _ Hstaff).
  destruct (visible_or_hidden request pk db) as [(w & Hdb & Hmay)|Hhidden];
    [|rewrite (update_hidden _ _ _ _ Hauth Hhidden); simpl;
      by rewrite (update_hidden _ _ _ _ Hauth Hhidden)].
  rewrite (update_visible _ _ _ _ _ Hauth Hdb Hmay).
  destruct (data request) as [errors|vd] eqn:Hdata; simpl.
  - by rewrite (update_visible _ _ _ _ _ Hauth Hdb Hmay), Hdata.
  - rewrite (Hkeyed pk w Hdb).
    rewrite (update_visible request pk now _ (apply_validated (derive_completed_at now vd) w) Hauth);
      [|apply lookup_insert_eq|by left].
    rewrite Hdata, apply_validated_twice, apply_validated_id, (Hkeyed pk w Hdb).
    by rewrite insert_insert_eq.
Qed.


(** X10: on a table whose rows sit under their own keys, a delete that
    answers 204 removes the row at the requested key and no other. *)
Theorem destroy_removes_exactly_the_row (request : Request) (pk : Z) (db : WorkTable) :
  rows_keyed db →
  status_code (destroy request pk db).1 = 204%Z →
  (destroy request pk db).2 = delete pk db
  ∧ (destroy request pk db).2 !! pk = None
  ∧ ∀ k, k ≠ pk → (destroy request pk db).2 !! k = db !! k.
Proof.
  intros Hkeyed (Hauth & w & Hdb & Hmay)%destroy_204_inv.
  rewrite (destroy_visible _ _ _ _ Hauth Hdb Hmay). simpl.
  rewrite (Hkeyed pk w Hdb). split; [done|]. split.
  - apply lookup_delete_eq.
  - intros k Hk. by apply lookup_delete_ne.
Qed.

(** X11: once a delete has answered 204, the key is gone for everybody:
    any authenticated requester's retrieve, update or second delete of it
    answers 404 and changes nothing. *)
Theorem destroyed_ticket_is_gone
    (request : Request) (pk : Z) (db : WorkTable) (request' : Request) (now : Z) :
  rows_keyed db →
  status_code (destroy request pk db).1 = 204%Z →
  is_authenticated (user request') = true →
  retrieve request' pk (destroy request pk db).2
  = (failure NotFound, (destroy request pk db).2)
  ∧ update request' pk now (destroy request pk db).2
    = (failure NotFound, (destroy request pk db).2)
  ∧ destroy request' pk (destroy request pk db).2
    = (failure NotFound, (destroy request pk db).2).
Proof.
  intros Hkeyed (Hauth & w & Hdb & Hmay)%destroy_204_inv Hauth'.
  rewrite (destroy_visible _ _ _ _ Hauth Hdb Hmay). simpl.
  apply detail_not_found; [done|].
  intros w'. by rewrite (Hkeyed pk w Hdb), lookup_delete_eq.
Qed.

(** X12: the list and the detail view show an authenticated requester the
    same tickets: a row is in the list queryset under a key exactly when
    retrieving that key answers 200 with that row.  Retrieving never
    writes. *)
Theorem list_and_detail_agree (request : Request) (db : WorkTable) :
  is_authenticated (user request) = true →
  (∀ pk w, list_get_queryset request db !! pk = Some w ↔
           retrieve request pk db = (success (Some w) 200, db))
  ∧ ∀ pk, (retrieve request pk db).2 = db.
Proof.
  intros Hauth. split.
  - intros pk w. rewrite (retrieve_unfold _ _ _ Hauth).
    change (list_get_queryset request db) with (get_queryset request db).
    rewrite get_queryset_lookup, <- get_object_Return.
    destruct (get_object request pk db) as [w'|e]; split; intros H; by simplify_eq.
  - intros pk. rewrite (retrieve_unfold _ _ _ Hauth).
    by destruct (get_object request pk db).
Qed.

(** X13: a create answers 201, 400, 401 or 403; it answers 201 exactly
    when the requester is staff and the payload validates, and 401 to an
    unauthenticated requester whatever the payload; the table is written
    only on 201. *)
Theorem create_writes_only_on_201 (request : Request) (db : WorkTable) :
  (status_code (create request db).1 = 201%Z
   ∨ status_code (create request db).1 = 400%Z
   ∨ status_code (create request db).1 = 401%Z
   ∨ status_code (create request db).1 = 403%Z)
  ∧ (status_code (create request db).1 ≠ 201%Z → (create request db).2 = db)
  ∧ (status_code (create request db).1 = 201%Z ↔
     user_is_staff (user request) = true ∧ ∃ vd, data request = WellFormed vd)
  ∧ (is_authenticated (user request) = false →
     status_code (create request db).1 = 401%Z).
Proof.
  rewrite create_unfold.
  destruct (user request) as [|u]; simpl.
  { split; [tauto|]. split; [done|]. split; [|done]. split; [done|]. by intros [? _]. }
  destruct (data request) as [errors|vd]; simpl.
  { split; [tauto|]. split; [done|]. split; [|done]. split; [done|].
    by intros [_ [? ?]]. }
  destruct (is_staff u); simpl.
  - split; [tauto|]. split; [done|]. split; [|done]. split; [eauto|done].
  - split; [tauto|]. split; [done|]. split; [|done]. split; [done|]. by intros [? _].
Qed.

Lemma create_201_inv (request : Request) (db : WorkTable) :
  status_code (create request db).1 = 201%Z →
  ∃ u vd, user request = LoggedIn u ∧ is_staff u = true
          ∧ data request = WellFormed vd
          ∧ create request db
            = (success (Some (created_work u vd db)) 201,
               <[next_pk db := created_work u vd db]> db).
Proof.
  rewrite create_unfold.
  destruct (user request) as [|u]; [done|].
  destruct (data request) as [errors|vd]; [done|].
  destruct (is_staff u) eqn:Hstaff; [|done]. intros _. by exists u, vd.
Qed.

(** X14: a create that answers 201 adds exactly one row: every row that
    was stored is still stored under its key, and the table has one row
    more. *)
Theorem create_adds_one_row (request : Request) (db : WorkTable) :
  status_code (create request db).1 = 201%Z →
  size (create request db).2 = S (size db)
  ∧ ∀ k w, db !! k = Some w → (create request db).2 !! k = Some w.
Proof.
  intros (u & vd & _ & _ & _ & ->)%create_201_inv. simpl. split.
  - apply map_size_insert_None, next_pk_fresh.
  - intros k w Hk. rewrite lookup_insert_ne; [done|].
    intros <-. by rewrite next_pk_fresh in Hk.
Qed.


(** X16: perform_create rewrites the validated data at the assignee key
    only.  Every other attribute of the created row is what saving the
    payload as it came would store; in particular completed_at is not
    derived from the status, so a payload with status COMPLETED and no
    completed_at key stores a COMPLETED ticket with the blank row's
    completed_at. *)
Theorem create_only_sets_assignee
    (request : Request) (u : User) (vd : ValidatedData) (db : WorkTable) :
  user request = LoggedIn u →
  is_staff u = true →
  data request = WellFormed vd →
  ∃ created plain,
    response_data (create request db).1 = Some created
    ∧ instance (save {| instance := None; validated_data := vd |} db).1 = Some plain
    ∧ id created = id plain
    ∧ title created = title plain
    ∧ description created = description plain
    ∧ status created = status plain
    ∧ work_type created = work_type plain
    ∧ order created = order plain
    ∧ due_date created = due_date plain
    ∧ completed_at created = completed_at plain
    ∧ (vd_status vd = Some COMPLETED → vd_completed_at vd = None →
       status created = COMPLETED
       ∧ completed_at created = completed_at (blank_work (next_pk db))).
Proof.
  intros Hu Hstaff Hdata.
  exists (created_work u vd db), (apply_validated vd (blank_work (next_pk db))).
  rewrite create_unfold, Hu, Hdata, Hstaff. simpl.
  split; [done|]. split; [done|].
  unfold created_work.
  destruct (assignee_unspecified vd); simpl; repeat (split; [done|]);
    by intros -> ->.
Qed.

Lemma fk_eq_user_unique (related : option User) (u1 u2 : User) :
  fk_eq_user related (LoggedIn u1) = true →
  fk_eq_user related (LoggedIn u2) = true →
  user_pk u1 = user_pk u2.
Proof.
  intros (a1 & ? & Ha1 & [= <-] & H1)%fk_eq_user_spec
         (a2 & ? & Ha2 & [= <-] & H2)%fk_eq_user_spec. congruence.
Qed.

(** X17: two non-staff users with different keys never see the same
    ticket: a row in the detail (or list) queryset of one is in neither
    queryset of the other. *)
Theorem non_staff_querysets_disjoint
    (request1 request2 : Request) (u1 u2 : User) (db : WorkTable) (pk : Z) (w : Work) :
  user request1 = LoggedIn u1 → is_staff u1 = false →
  user request2 = LoggedIn u2 → is_staff u2 = false →
  user_pk u1 ≠ user_pk u2 →
  get_queryset request1 db !! pk = Some w ∨ list_get_queryset request1 db !! pk = Some w →
  get_queryset request2 db !! pk = None ∧ list_get_queryset request2 db !! pk = None.
Proof.
  intros Hu1 Hs1 Hu2 Hs2 Hne Hseen.
  change (list_get_queryset request1 db) with (get_queryset request1 db) in Hseen.
  change (list_get_queryset request2 db) with (get_queryset request2 db).
  assert (H1 : get_queryset request1 db !! pk = Some w) by tauto.
  apply get_queryset_lookup in H1 as [Hdb [H1|H1]];
    [by rewrite Hu1 in H1; simpl in H1; congruence|].
  assert (get_queryset request2 db !! pk = None); [|done].
  destruct (get_queryset request2 db !! pk) as [w'|] eqn:H2; [|done].
  apply get_queryset_lookup in H2 as [Hdb' [H2|H2]];
    [by rewrite Hu2 in H2; simpl in H2; congruence|].
  assert (w' = w) as -> by congruence.
  rewrite Hu1 in H1. rewrite Hu2 in H2.
  destruct Hne. by apply (fk_eq_user_unique (assignee w)).
Qed.

(** X18: a ticket without an assignee belongs to staff alone: a staff
    requester retrieves it, a non-staff requester does not find it in the
    list and is answered 404 on retrieve, update and delete. *)
Theorem unassigned_ticket_is_staff_only
    (request : Request) (pk now : Z) (db : WorkTable) (w : Work) :
  db !! pk = Some w →
  assignee w = None →
  is_authenticated (user request) = true →
  (user_is_staff (user request) = true →
   retrieve request pk db = (success (Some w) 200, db))
  ∧ (user_is_staff (user request) = false →
     list_get_queryset request db !! pk = None
     ∧ retrieve request pk db = (failure NotFound, db)
     ∧ update request pk now db = (failure NotFound, db)
     ∧ destroy request pk db = (failure NotFound, db)).
Proof.
  intros Hdb Hnone Hauth. split; intros Hstaff.
  - apply retrieve_visible; [done|done|by left].
  - assert (Hhidden : ∀ w', db !! pk = Some w' → ¬ may_change (user request) w').
    { intros w' Hw'. assert (w' = w) as -> by congruence.
      apply not_may_change. split; [done|].
      apply fk_ne_user_true. by rewrite Hnone. }
    split; [|by apply detail_not_found].
    change (list_get_queryset request db) with (get_queryset request db).
    destruct (get_queryset request db !! pk) as [w'|] eqn:Hq; [|done].
    apply get_queryset_lookup in Hq as [Hw' Hmay]. by destruct (Hhidden w' Hw').
Qed.

End WorkMore.

(** * The user admin *)

Module UserAdminFacts.
Import UserAdmin.

(** X19: whichever page is shown, every field of the form class get_form
    picks is laid out in the fieldsets get_fieldsets returns for the same
    object, and no field is laid out twice. *)
Theorem form_fields_are_laid_out (obj : option User) :
  (∀ f, f ∈ meta_fields (get_form obj) → f ∈ flatten_fieldsets (get_fieldsets obj))
  ∧ NoDup (flatten_fieldsets (get_fieldsets obj)).
Proof.
  split.
  - apply Forall_forall.
    destruct obj; apply (bool_decide_unpack _); by vm_compute.
  - destruct obj; apply (bool_decide_unpack _); by vm_compute.
Qed.

(** X20: the add page (no object) and the change page differ exactly in
    the password pair and the read-only timestamps: password1 and
    password2 are laid out only when there is no object, and then with
    the creation form; each read-only field is laid out only when there is
    an object, and then with the change form; every other field is laid
    out on the add page exactly when it is laid out on the change page. *)
Theorem add_and_change_pages_differ (obj : option User) :
  (∀ f, f ∈ ["password1"; "password2"] →
        (f ∈ flatten_fieldsets (get_fieldsets obj) ↔ obj = None))
  ∧ (∀ f, f ∈ readonly_fields →
          (f ∈ flatten_fieldsets (get_fieldsets obj) ↔ obj ≠ None))
  ∧ (get_form obj = CustomUserCreationForm ↔ obj = None)
  ∧ (∀ (u : User) (f : string),
       f ∉ ["password1"; "password2"] → f ∉ readonly_fields →
       (f ∈ flatten_fieldsets (get_fieldsets None) ↔
        f ∈ flatten_fieldsets (get_fieldsets (Some u)))).
Proof.
  split; [|split; [|split]].
  - intros f Hf. rewrite !elem_of_cons, elem_of_nil in Hf.
    destruct Hf as [->|[->|[]]]; destruct obj as [u|]; split;
      try done; intros Hin; try decide_closed;
      exfalso; revert Hin; decide_closed.
  - intros f Hf. unfold readonly_fields in Hf.
    rewrite !elem_of_cons, elem_of_nil in Hf.
    destruct Hf as [->|[->|[]]]; destruct obj as [u|]; split;
      try done; intros Hin; try decide_closed;
      exfalso; revert Hin; decide_closed.
  - unfold get_form, add_form, form. destruct obj; split; done.
  - intros u f Hpw Hro. unfold readonly_fields in Hro.
    unfold flatten_fieldsets, get_fieldsets. simpl.
    rewrite !elem_of_cons, !elem_of_nil in *. tauto.
Qed.

End UserAdminFacts.

(** * Further properties of the Like endpoints *)

Module LikeMore.
Import Like LikeSpec LikeFacts LikeTests.

Lemma same_target_sym (l1 l2 : Like) :
  same_target (user l1) (content_type l1) (object_id l1) l2 = true →
  same_target (user l2) (content_type l2) (object_id l2) l1 = true.
Proof.
  intros (? & ? & ?)%same_target_spec. apply same_target_spec.
  repeat split; congruence.
Qed.

(** Inserting a like of an item its user has not liked keeps the unique
    constraint. *)
Lemma unique_together_insert (db : LikeTable) (l : Like) :
  unique_together db →
  ¬ liked (user l) (content_type l) (object_id l) db →
  unique_together (<[id l := l]> db).
Proof.
  intros Huniq Hnew k1 k2 l1 l2 H1 H2 Hsame.
  destruct (decide (id l = k1)) as [<-|Hne1], (decide (id l = k2)) as [<-|Hne2];
    [done|..].
  - rewrite lookup_insert_eq in H1. injection H1 as <-.
    rewrite lookup_insert_ne in H2 by done.
    destruct Hnew. by exists k2, l2.
  - rewrite lookup_insert_eq in H2. injection H2 as <-.
    rewrite lookup_insert_ne in H1 by done.
    destruct Hnew. exists k1, l1. split; [done|]. by apply same_target_sym.
  - rewrite lookup_insert_ne in H1, H2 by done. by apply (Huniq k1 k2 l1 l2).
Qed.

Lemma unique_together_delete (db : LikeTable) (k : Z) :
  unique_together db → unique_together (delete k db).
Proof.
  intros Huniq k1 k2 l1 l2 [_ H1]%lookup_delete_Some [_ H2]%lookup_delete_Some.
  by apply Huniq.
Qed.

Lemma not_exists_not_liked (u : User) (ct : ContentType) (oid : Z) (db : LikeTable) :
  exists_ (likes_of u ct oid db) = false → ¬ liked u ct oid db.
Proof. intros Hex Hliked%exists_likes_of. congruence. Qed.

(** The Like endpoints keep the store's unique constraint on (user,
    content_type, object_id): whatever a create or a destroy is sent and
    whatever it answers, a table without duplicates stays without. *)
Theorem like_views_keep_unique_together
    (request : Request) (now : Z) (ru : RequestUser) (pk : Z) (db : LikeTable) :
  unique_together db →
  unique_together (create request now db).2
  ∧ unique_together (destroy ru pk db).2.
Proof.
  intros Huniq. split.
  - unfold create, check_permissions, permission_denied.
    destruct (requester request) as [|u]; [done|]. run_view.
    destruct (data request) as [errors|ct oid]; [done|].
    destruct (exists_ (likes_of u ct oid db)) eqn:Hex; [done|]. simpl.
    apply (unique_together_insert db
             {| id := next_pk db; user := u; content_type := ct;
                object_id := oid; created_at := now |}); [done|].
    by apply not_exists_not_liked.
  - unfold destroy, check_permissions, permission_denied.
    destruct ru as [|u]; [done|]. run_view.
    destruct (db !! pk) as [l|]; [|done].
    destruct (fk_ne_user (Some (user l)) (LoggedIn u)); [done|]. simpl.
    by apply unique_together_delete.
Qed.

(** X21: the destroy tests for any user and item: after the create_like
    fixture has stored a like, its owner's DELETE answers 204 and the table
    is again what it was before the fixture, while another user's DELETE
    answers 403 and leaves the fixture's table. *)
Theorem fixture_like_destroy
    (u : User) (ct : ContentType) (oid created : Z) (db : LikeTable)
    (l : Like) (db' : LikeTable) :
  create_like u ct oid created db = Some (l, db') →
  destroy (LoggedIn u) (id l) db' = (success None 204, db)
  ∧ ∀ other, user_pk other ≠ user_pk u →
      destroy (LoggedIn other) (id l) db' = (failure PermissionDenied, db')
      ∧ db' !! id l = Some l.
Proof.
  unfold create_like.
  destruct (exists_ (likes_of u ct oid db)); [done|].
  intros [= <- <-]. simpl. unfold destroy. run_view.
  rewrite lookup_insert_eq. unfold fk_ne_user, fk_eq_user, user_eqb. simpl. split.
  - rewrite bool_decide_eq_true_2 by done. simpl.
    by rewrite delete_insert_id by apply like_next_pk_fresh.
  - intros other Hother. by rewrite bool_decide_eq_false_2 by done.
Qed.

(** X22: the duplicate test for any user and item: after the create_like
    fixture has stored the user's like of an item, the user's POST for the
    same item answers 400 with "You have already liked this item." and
    stores nothing. *)
Theorem fixture_like_then_post
    (u : User) (ct : ContentType) (oid created now : Z) (db : LikeTable)
    (l : Like) (db' : LikeTable) :
  create_like u ct oid created db = Some (l, db') →
  create (mkRequest (LoggedIn u) (Target ct oid)) now db'
  = (failure (ValidationError "You have already liked this item."), db').
Proof.
  unfold create_like.
  destruct (exists_ (likes_of u ct oid db)); [done|].
  intros [= <- <-]. unfold create. simpl. run_view.
  rewrite (proj2 (exists_likes_of u ct oid _)); [done|].
  eexists (next_pk db), _. rewrite lookup_insert_eq. split; [done|].
  apply same_target_spec. done.
Qed.

End LikeMore.

(** ** The further statements at the sample data *)

Module WorkMoreExamples.
Import Work WorkSpec WorkFacts WorkStore WorkMore Sample Sample2.

Lemma tickets_keyed : rows_keyed tickets.
Proof.
  unfold tickets. intros k w [<- <-]%lookup_singleton_Some. reflexivity.
Qed.

Lemma two_tickets_keyed : rows_keyed two_tickets.
Proof.
  unfold two_tickets. intros k w [[<- <-]|[_ H]]%lookup_insert_Some; [reflexivity|].
  by apply tickets_keyed.
Qed.

Lemma update_not_found_before_validation_witness :
  update alice_garbles 1 99 tickets
  = (failure (ValidationError "title: This field is required."), tickets)
  ∧ update alice_garbles 5 99 tickets = (failure NotFound, tickets).
Proof.
  split.
  - apply (proj2 (update_not_found_before_validation alice_garbles 1 99 tickets _
                    eq_refl eq_refl) ticket); [reflexivity | right; reflexivity].
  - apply (proj1 (update_not_found_before_validation alice_garbles 5 99 tickets _
                    eq_refl eq_refl)).
    intros w Hw. vm_compute in Hw. discriminate Hw.
Defined.

Lemma update_touches_one_row_witness :
  (∀ k, k ≠ 1%Z → (update (alice_sets COMPLETED) 1 99 two_tickets).2 !! k
                  = two_tickets !! k)
  ∧ dom (update (alice_sets COMPLETED) 1 99 two_tickets).2 = dom two_tickets
  ∧ ∃ saved, (update (alice_sets COMPLETED) 1 99 two_tickets).2 !! 1%Z = Some saved
             ∧ id saved = 1%Z.
Proof.
  apply (update_touches_one_row (alice_sets COMPLETED) 1 99 two_tickets);
    [exact two_tickets_keyed | reflexivity].
Defined.

Lemma update_without_status_leaves_completed_at_witness :
  ∃ serializer saved,
    perform_update alice_titles 99
      {| instance := Some ticket; validated_data := only_title "ship" |} tickets
    = Return (serializer, <[id ticket := saved]> tickets)
    ∧ instance serializer = Some saved
    ∧ saved = apply_validated (only_title "ship") ticket
    ∧ status saved = status ticket
    ∧ completed_at saved
      = default (completed_at ticket) (vd_completed_at (only_title "ship")).
Proof.
  apply (update_without_status_leaves_completed_at alice_titles 99 ticket
           (only_title "ship") tickets); [reflexivity | right; reflexivity].
Defined.

Lemma handing_over_loses_access_witness :
  status_code (update alice_hands_over 1 99 tickets).1 = 200%Z
  ∧ ∀ request' now',
      user request' = LoggedIn alice →
      retrieve request' 1 (update alice_hands_over 1 99 tickets).2
      = (failure NotFound, (update alice_hands_over 1 99 tickets).2)
      ∧ update request' 1 now' (update alice_hands_over 1 99 tickets).2
        = (failure NotFound, (update alice_hands_over 1 99 tickets).2)
      ∧ destroy request' 1 (update alice_hands_over 1 99 tickets).2
        = (failure NotFound, (update alice_hands_over 1 99 tickets).2).
Proof.
  apply (handing_over_loses_access alice_hands_over alice 1 99 tickets ticket
           hand_over (Some bob)); try reflexivity.
  exact tickets_keyed.
Defined.

Lemma staff_update_twice_witness :
  update admin_titles 1 99 (update admin_titles 1 99 two_tickets).2
  = update admin_titles 1 99 two_tickets.
Proof.
  apply (staff_update_twice admin_titles 1 99 two_tickets);
    [exact two_tickets_keyed | reflexivity].
Defined.

Lemma destroy_removes_exactly_the_row_witness :
  (destroy (alice_sets PENDING) 1 two_tickets).2 = delete 1%Z two_tickets
  ∧ (destroy (alice_sets PENDING) 1 two_tickets).2 !! 1%Z = None
  ∧ ∀ k, k ≠ 1%Z → (destroy (alice_sets PENDING) 1 two_tickets).2 !! k
                   = two_tickets !! k.
Proof.
  apply (destroy_removes_exactly_the_row (alice_sets PENDING) 1 two_tickets);
    [exact two_tickets_keyed | reflexivity].
Defined.

Lemma destroyed_ticket_is_gone_witness :
  retrieve admin_titles 1 (destroy (alice_sets PENDING) 1 tickets).2
  = (failure NotFound, (destroy (alice_sets PENDING) 1 tickets).2)
  ∧ update admin_titles 1 99 (destroy (alice_sets PENDING) 1 tickets).2
    = (failure NotFound, (destroy (alice_sets PENDING) 1 tickets).2)
  ∧ destroy admin_titles 1 (destroy (alice_sets PENDING) 1 tickets).2
    = (failure NotFound, (destroy (alice_sets PENDING) 1 tickets).2).
Proof.
  apply (destroyed_ticket_is_gone (alice_sets PENDING) 1 tickets admin_titles 99);
    [exact tickets_keyed | reflexivity | reflexivity].
Defined.

Lemma list_and_detail_agree_witness :
  (∀ pk w, list_get_queryset alice_titles two_tickets !! pk = Some w ↔
           retrieve alice_titles pk two_tickets = (success (Some w) 200, two_tickets))
  ∧ ∀ pk, (retrieve alice_titles pk two_tickets).2 = two_tickets.
Proof.
  apply (list_and_detail_agree alice_titles two_tickets). reflexivity.
Defined.

Lemma create_adds_one_row_witness :
  size (create admin_creates tickets).2 = S (size tickets)
  ∧ ∀ k w, tickets !! k = Some w → (create admin_creates tickets).2 !! k = Some w.
Proof.
  apply (create_adds_one_row admin_creates tickets). reflexivity.
Defined.


Lemma create_only_sets_assignee_witness :
  ∃ created plain,
    response_data (create admin_creates tickets).1 = Some created
    ∧ instance (save {| instance := None; validated_data := completed_for_alice |}
                  tickets).1 = Some plain
    ∧ id created = id plain
    ∧ title created = title plain
    ∧ description created = description plain
    ∧ status created = status plain
    ∧ work_type created = work_type plain
    ∧ order created = order plain
    ∧ due_date created = due_date plain
    ∧ completed_at created = completed_at plain
    ∧ (vd_status completed_for_alice = Some COMPLETED →
       vd_completed_at completed_for_alice = None →
       status created = COMPLETED
       ∧ completed_at created = completed_at (blank_work (next_pk tickets))).
Proof.
  apply (create_only_sets_assignee admin_creates admin completed_for_alice tickets);
    reflexivity.
Defined.

Lemma non_staff_querysets_disjoint_witness :
  get_queryset (bob_sets PENDING) tickets !! 1%Z = None
  ∧ list_get_queryset (bob_sets PENDING) tickets !! 1%Z = None.
Proof.
  apply (non_staff_querysets_disjoint alice_titles (bob_sets PENDING) alice bob
           tickets 1 ticket); try reflexivity.
  - discriminate.
  - left. reflexivity.
Defined.

Lemma unassigned_ticket_is_staff_only_witness :
  (user_is_staff (user alice_titles) = true →
   retrieve alice_titles 2 two_tickets = (success (Some orphan) 200, two_tickets))
  ∧ (user_is_staff (user alice_titles) = false →
     list_get_queryset alice_titles two_tickets !! 2%Z = None
     ∧ retrieve alice_titles 2 two_tickets = (failure NotFound, two_tickets)
     ∧ update alice_titles 2 99 two_tickets = (failure NotFound, two_tickets)
     ∧ destroy alice_titles 2 two_tickets = (failure NotFound, two_tickets)).
Proof.
  apply (unassigned_ticket_is_staff_only alice_titles 2 99 two_tickets orphan);
    reflexivity.
Defined.

End WorkMoreExamples.

Module LikeMoreExamples.
Import Like LikeSpec LikeFacts LikeTests LikeMore Sample Sample2.

Lemma likes_unique : unique_together likes.
Proof.
  unfold likes.
  intros k1 k2 l1 l2 [<- _]%lookup_singleton_Some [<- _]%lookup_singleton_Some _.
  reflexivity.
Qed.

Lemma like_views_keep_unique_together_witness :
  unique_together
    (create (mkRequest (LoggedIn alice) (Target order_type 10)) 3000 likes).2
  ∧ unique_together (destroy (LoggedIn bob) 1 likes).2.
Proof.
  apply (like_views_keep_unique_together
           (mkRequest (LoggedIn alice) (Target order_type 10)) 3000
           (LoggedIn bob) 1 likes).
  exact likes_unique.
Defined.

Lemma fixture_like_destroy_witness :
  destroy (LoggedIn alice) (id alices_like) likes_after = (success None 204, likes)
  ∧ ∀ other, user_pk other ≠ user_pk alice →
      destroy (LoggedIn other) (id alices_like) likes_after
      = (failure PermissionDenied, likes_after)
      ∧ likes_after !! id alices_like = Some alices_like.
Proof.
  apply (fixture_like_destroy alice order_type 10 3000 likes alices_like likes_after).
  reflexivity.
Defined.

Lemma fixture_like_then_post_witness :
  create (mkRequest (LoggedIn alice) (Target order_type 10)) 4000 likes_after
  = (failure (ValidationError "You have already liked this item."), likes_after).
Proof.
  apply (fixture_like_then_post alice order_type 10 3000 4000 likes alices_like
           likes_after).
  reflexivity.
Defined.

End LikeMoreExamples.
